(** * Option scanner: a shallow embedding of [script.py] and its properties

    The script prices every contract of an option chain with the closed
    Black-Scholes formulas and records the contracts whose market price lies
    below the theoretical one.

    Numbers.  Python and numpy floats are idealised as real numbers ([R]):
    [np.log] is [ln], [np.exp] is [exp], [np.sqrt] is [sqrt] and
    [scipy.stats.norm.cdf] is the standard normal distribution function.
    Rounding, infinities, NaN and the range of floats (the [OverflowError]
    of a float operation whose result is too large) are outside the model;
    the statements that speak about prices assume the domain on which the
    formulas are defined ([S], [K], [sigma], [t] strictly positive). *)

From Stdlib Require Import Reals Lra Lia ZArith List String Ascii Bool.
From Stdlib Require Import DecimalString.
Import ListNotations.

Open Scope R_scope.

(** ** The standard normal distribution function *)

Module Normal.

(** The integrand of the Gaussian integral, [exp (- u^2 / 2)]. *)
Definition bell (u : R) : R := exp (- (u * u) / 2).

Lemma bell_pos (u : R) : 0 < bell u.
Proof. apply exp_pos. Qed.

Lemma bell_continuous (u : R) : continuity_pt bell u.
Proof.
  unfold bell.
  apply (continuity_pt_comp (fun v => - (v * v) / 2) exp).
  - reg.
  - apply derivable_continuous_pt, derivable_pt_exp.
Qed.

Lemma bell_integrable (a b : R) : Riemann_integrable bell a b.
Proof.
  destruct (Rle_dec a b) as [Hab | Hab].
  - apply continuity_implies_RiemannInt; [exact Hab | intros; apply bell_continuous].
  - apply RiemannInt_P1, continuity_implies_RiemannInt;
      [lra | intros; apply bell_continuous].
Qed.

(** Area under the bell between [0] and [x], for [x] on either side of 0. *)
Definition area (x : R) : R := RiemannInt (bell_integrable 0 (Rabs x)).

(** [cdf x = 1/2 + sgn x / sqrt (2 PI) * integral of bell over [0, |x|]]:
    the distribution function written with the symmetry of the bell. *)
Definition cdf (x : R) : R :=
  if Rle_dec 0 x
  then 1 / 2 + area x / sqrt (2 * PI)
  else 1 / 2 - area x / sqrt (2 * PI).

Lemma area_nonneg (x : R) : 0 <= area x.
Proof.
  unfold area.
  destruct (RiemannInt_const_bound (l := 0) (u := 1)
              (bell_integrable 0 (Rabs x))) as [Hlow _].
  - apply Rabs_pos.
  - intros u _. split; [left; apply bell_pos |].
    unfold bell. rewrite <- exp_0.
    destruct (Req_dec u 0) as [-> | Hu].
    + right. f_equal. lra.
    + left. apply exp_increasing. nra.
  - lra.
Qed.

Lemma area_0 : area 0 = 0.
Proof.
  unfold area.
  generalize (bell_integrable 0 (Rabs 0)).
  rewrite Rabs_R0. intro pr. apply RiemannInt_P9.
Qed.

Lemma area_opp (x : R) : area (- x) = area x.
Proof.
  unfold area.
  generalize (bell_integrable 0 (Rabs (- x))).
  rewrite Rabs_Ropp. intro pr. apply RiemannInt_P5.
Qed.

Lemma sqrt_2PI_pos : 0 < sqrt (2 * PI).
Proof. apply sqrt_lt_R0. generalize PI_RGT_0. lra. Qed.

Lemma cdf_0 : cdf 0 = 1 / 2.
Proof.
  unfold cdf. rewrite area_0.
  destruct (Rle_dec 0 0); unfold Rdiv; rewrite Rmult_0_l; lra.
Qed.

(** The symmetry of the distribution: [cdf (- x) = 1 - cdf x]. *)
Lemma cdf_opp (x : R) : cdf (- x) = 1 - cdf x.
Proof.
  destruct (Req_dec x 0) as [-> | Hx].
  - rewrite Ropp_0, cdf_0. lra.
  - unfold cdf. rewrite area_opp.
    destruct (Rle_dec 0 (- x)), (Rle_dec 0 x); lra.
Qed.

Lemma cdf_ge_half (x : R) : 0 <= x -> 1 / 2 <= cdf x.
Proof.
  intro Hx. unfold cdf.
  destruct (Rle_dec 0 x) as [_ | H]; [| contradiction].
  assert (0 <= area x / sqrt (2 * PI)).
  { apply Rmult_le_pos; [apply area_nonneg |].
    left. apply Rinv_0_lt_compat, sqrt_2PI_pos. }
  lra.
Qed.

Lemma cdf_le_half (x : R) : x <= 0 -> cdf x <= 1 / 2.
Proof.
  intro Hx.
  replace x with (- - x) by lra.
  rewrite cdf_opp.
  assert (1 / 2 <= cdf (- x)) by (apply cdf_ge_half; lra).
  lra.
Qed.

End Normal.

(** ** Exceptions and fallible computations *)

(** The Python exceptions the script can raise. *)
Inductive exn : Type :=
| ZeroDivisionError
| ValueError            (* float() and strptime on bad text *)
| TypeError
| KeyError
| AttributeError
| ConnectionError       (* raised by requests.get itself *)
| JSONDecodeError       (* raised by response.json() *)
| Exception (message : string).   (* raise Exception(...), line 36 *)

Inductive result (A : Type) : Type :=
| Ok (a : A)
| Raise (e : exn).
Arguments Ok {A} a.
Arguments Raise {A} e.

Definition bind {A B : Type} (c : result A) (k : A -> result B) : result B :=
  match c with
  | Ok a => k a
  | Raise e => Raise e
  end.

Notation "x <- c ;; k" := (bind c (fun x => k))
  (at level 61, c at next level, right associativity).

(** Division of two Python floats: a zero divisor raises. *)
Definition py_div (x y : R) : result R :=
  if Req_dec_T y 0 then Raise ZeroDivisionError else Ok (x / y).

Lemma py_div_ok (x y : R) : y <> 0 -> py_div x y = Ok (x / y).
Proof. intro Hy. unfold py_div. destruct (Req_dec_T y 0); [contradiction | reflexivity]. Qed.

Lemma py_div_zero (x : R) : py_div x 0 = Raise ZeroDivisionError.
Proof. unfold py_div. destruct (Req_dec_T 0 0); [reflexivity | lra]. Qed.

(** ** Pricing model (script.py, lines 13-23) *)

Definition norm_cdf : R -> R := Normal.cdf.

(** [black_scholes_call(S, K, sigma, r, t)].  [S/K] divides two Python
    floats; the other quotient is a numpy one and does not raise. *)
Definition black_scholes_call (S K sigma r t : R) : result R :=
  q <- py_div S K ;;
  let d1 := (ln q + (r + 0.5 * sigma ^ 2) * t) / (sigma * sqrt t) in
  let d2 := d1 - sigma * sqrt t in
  Ok (S * norm_cdf d1 - K * exp (- r * t) * norm_cdf d2).

(** [black_scholes_put(S, K, sigma, r, t)]. *)
Definition black_scholes_put (S K sigma r t : R) : result R :=
  q <- py_div S K ;;
  let d1 := (ln q + (r + 0.5 * sigma ^ 2) * t) / (sigma * sqrt t) in
  let d2 := d1 - sigma * sqrt t in
  Ok (K * exp (- r * t) * norm_cdf (- d2) - S * norm_cdf (- d1)).

(** The Black-Scholes quantities as the specification words them. *)
Module BlackScholes.

Definition d1 (S K sigma r t : R) : R :=
  (ln (S / K) + (r + sigma * sigma / 2) * t) / (sigma * sqrt t).

Definition d2 (S K sigma r t : R) : R :=
  d1 S K sigma r t - sigma * sqrt t.

Definition call (Phi : R -> R) (S K sigma r t : R) : R :=
  S * Phi (d1 S K sigma r t) - K * exp (- (r * t)) * Phi (d2 S K sigma r t).

Definition put (Phi : R -> R) (S K sigma r t : R) : R :=
  K * exp (- (r * t)) * Phi (- d2 S K sigma r t) - S * Phi (- d1 S K sigma r t).

End BlackScholes.

Lemma black_scholes_call_eq (S K sigma r t : R) :
  K <> 0 ->
  black_scholes_call S K sigma r t
  = Ok (BlackScholes.call norm_cdf S K sigma r t).
Proof.
  intro HK. unfold black_scholes_call. rewrite (py_div_ok S K HK). unfold bind.
  unfold BlackScholes.call, BlackScholes.d2, BlackScholes.d1.
  replace (0.5 * sigma ^ 2) with (sigma * sigma / 2) by lra.
  replace (- r * t) with (- (r * t)) by lra.
  reflexivity.
Qed.

Lemma black_scholes_put_eq (S K sigma r t : R) :
  K <> 0 ->
  black_scholes_put S K sigma r t
  = Ok (BlackScholes.put norm_cdf S K sigma r t).
Proof.
  intro HK. unfold black_scholes_put. rewrite (py_div_ok S K HK). unfold bind.
  unfold BlackScholes.put, BlackScholes.d2, BlackScholes.d1.
  replace (0.5 * sigma ^ 2) with (sigma * sigma / 2) by lra.
  replace (- r * t) with (- (r * t)) by lra.
  reflexivity.
Qed.

Lemma parity_identity (S K sigma r t : R) :
  BlackScholes.call norm_cdf S K sigma r t
  - BlackScholes.put norm_cdf S K sigma r t
  = S - K * exp (- (r * t)).
Proof.
  unfold BlackScholes.call, BlackScholes.put, norm_cdf.
  rewrite !Normal.cdf_opp. ring.
Qed.

(** ** Calendar dates (the part of [datetime] the script relies on) *)

Record date : Type := mkdate { year : Z; month : Z; day : Z }.

Open Scope Z_scope.

Definition is_leap (y : Z) : bool :=
  (y mod 4 =? 0) && (negb (y mod 100 =? 0) || (y mod 400 =? 0)).

Definition days_in_month (y m : Z) : Z :=
  match m with
  | 1 => 31 | 2 => if is_leap y then 29 else 28 | 3 => 31 | 4 => 30
  | 5 => 31 | 6 => 30 | 7 => 31 | 8 => 31 | 9 => 30 | 10 => 31
  | 11 => 30 | 12 => 31
  | _ => 0
  end.

Definition days_before_year (y : Z) : Z :=
  let p := y - 1 in p * 365 + p / 4 - p / 100 + p / 400.

Definition days_before_month (y m : Z) : Z :=
  match m with
  | 1 => 0 | 2 => 31 | 3 => 59 | 4 => 90 | 5 => 120 | 6 => 151
  | 7 => 181 | 8 => 212 | 9 => 243 | 10 => 273 | 11 => 304 | 12 => 334
  | _ => 0
  end + (if (2 <? m) && is_leap y then 1 else 0).

(** [date.toordinal()]: day 1 is 0001-01-01. *)
Definition toordinal (d : date) : Z :=
  days_before_year (year d) + days_before_month (year d) (month d) + day d.

(** The dates the [datetime] constructor accepts. *)
Definition valid_date (d : date) : bool :=
  (1 <=? year d) && (year d <=? 9999) &&
  (1 <=? month d) && (month d <=? 12) &&
  (1 <=? day d) && (day d <=? days_in_month (year d) (month d)).

(** Calendar order: year, then month, then day. *)
Definition date_compare (a b : date) : comparison :=
  match year a ?= year b with
  | Eq => match month a ?= month b with
          | Eq => day a ?= day b
          | c => c
          end
  | c => c
  end.

Definition on_or_before (a b : date) : Prop := date_compare a b <> Gt.

(** [(a - b).days] for two midnights in the same zone. *)
Definition days_between (a b : date) : Z := toordinal a - toordinal b.

(** *** [strptime(text, "%Y-%m-%d")]

    The format compiles to the regular expression
    [(\d\d\d\d)-(1[0-2]|0[1-9]|[1-9])-(3[0-1]|[1-2]\d|0[1-9]|[1-9]| [1-9])],
    matched at the start of the text; the alternatives are tried in order and
    the match has to consume the whole text.  A matcher returns its possible
    matches in the order the regular expression engine tries them.  The
    digits are the ASCII ones. *)

Definition matcher (A : Type) : Type := list ascii -> list (A * list ascii).

Definition is_digit (c : ascii) : bool :=
  let n := Z.of_nat (nat_of_ascii c) in (48 <=? n) && (n <=? 57).

Definition digit_value (c : ascii) : Z := Z.of_nat (nat_of_ascii c) - 48.

Definition in_range (lo hi : Z) (c : ascii) : bool :=
  is_digit c && (lo <=? digit_value c) && (digit_value c <=? hi).

(** [\d\d\d\d] *)
Definition re_year : matcher Z := fun s =>
  match s with
  | a :: b :: c :: d :: rest =>
      if is_digit a && is_digit b && is_digit c && is_digit d
      then [(1000 * digit_value a + 100 * digit_value b
             + 10 * digit_value c + digit_value d, rest)]
      else []
  | _ => []
  end.

(** A literal character of the format. *)
Definition re_lit (x : ascii) : matcher unit := fun s =>
  match s with
  | c :: rest => if Ascii.eqb c x then [(tt, rest)] else []
  | [] => []
  end.

(** Two characters: a digit in [a_lo..a_hi], then a digit in [b_lo..b_hi]. *)
Definition two_digits (a_lo a_hi b_lo b_hi : Z) : matcher Z := fun s =>
  match s with
  | a :: b :: rest =>
      if in_range a_lo a_hi a && in_range b_lo b_hi b
      then [(10 * digit_value a + digit_value b, rest)] else []
  | _ => []
  end.

(** One digit in [lo..hi]. *)
Definition one_digit (lo hi : Z) : matcher Z := fun s =>
  match s with
  | a :: rest => if in_range lo hi a then [(digit_value a, rest)] else []
  | [] => []
  end.

(** A space followed by a digit in [1..9]. *)
Definition space_digit : matcher Z := fun s =>
  match s with
  | a :: b :: rest =>
      if Ascii.eqb a " " && in_range 1 9 b then [(digit_value b, rest)] else []
  | _ => []
  end.

Definition alt {A : Type} (p q : matcher A) : matcher A :=
  fun s => p s ++ q s.

(** [1[0-2]|0[1-9]|[1-9]] *)
Definition re_month : matcher Z :=
  alt (two_digits 1 1 0 2) (alt (two_digits 0 0 1 9) (one_digit 1 9)).

(** [3[0-1]|[1-2]\d|0[1-9]|[1-9]| [1-9]] *)
Definition re_day : matcher Z :=
  alt (two_digits 3 3 0 1)
    (alt (two_digits 1 2 0 9)
       (alt (two_digits 0 0 1 9) (alt (one_digit 1 9) space_digit))).

Definition seq {A B : Type} (p : matcher A) (k : A -> matcher B) : matcher B :=
  fun s => flat_map (fun '(a, rest) => k a rest) (p s).

Definition ret {A : Type} (a : A) : matcher A := fun s => [(a, s)].

Definition re_date : matcher date :=
  seq re_year (fun y =>
  seq (re_lit "-") (fun _ =>
  seq re_month (fun m =>
  seq (re_lit "-") (fun _ =>
  seq re_day (fun d => ret (mkdate y m d)))))).

Definition strptime (text : string) : result date :=
  match re_date (list_ascii_of_string text) with
  | [] => Raise ValueError                  (* does not match the format *)
  | (d, rest) :: _ =>
      match rest with
      | _ :: _ => Raise ValueError          (* unconverted data remains *)
      | [] => if valid_date d then Ok d else Raise ValueError
      end
  end.

(** A text is a parseable calendar date when [strptime] accepts it. *)
Definition parseable (text : string) : Prop := exists d, strptime text = Ok d.

Definition digit_char (n : Z) : ascii := ascii_of_nat (48 + Z.to_nat n).

Definition two_digit_text (n : Z) : list ascii :=
  [digit_char (n / 10); digit_char (n mod 10)].

(** [date.isoformat()]: the date written [YYYY-MM-DD]. *)
Definition isoformat (d : date) : string :=
  string_of_list_ascii
    (digit_char (year d / 1000) :: digit_char (year d / 100 mod 10)
     :: digit_char (year d / 10 mod 10) :: digit_char (year d mod 10)
     :: "-"%char :: two_digit_text (month d)
     ++ "-"%char :: two_digit_text (day d)).

(** A month or a day number written without a leading zero. *)
Definition unpadded (n : Z) : list ascii :=
  if n <? 10 then [digit_char n] else two_digit_text n.

(** A date written year-month-day, the month and the day each with or
    without zero padding. *)
Definition date_text (pad_month pad_day : bool) (d : date) : string :=
  string_of_list_ascii
    (digit_char (year d / 1000) :: digit_char (year d / 100 mod 10)
     :: digit_char (year d / 10 mod 10) :: digit_char (year d mod 10)
     :: "-"%char
     :: (if pad_month then two_digit_text (month d) else unpadded (month d))
     ++ "-"%char
     :: (if pad_day then two_digit_text (day d) else unpadded (day d))).

(** The text holds ASCII characters only. *)
Definition is_ascii (text : string) : bool :=
  forallb (fun c => (nat_of_ascii c <? 128)%nat) (list_ascii_of_string text).

(** Every match of [p] takes between [lo] and [hi] characters. *)
Definition consumes {A : Type} (p : matcher A) (lo hi : nat) : Prop :=
  forall s v rest,
    In (v, rest) (p s) ->
    (List.length rest + lo <= List.length s <= List.length rest + hi)%nat.

Open Scope R_scope.

(** ** Time normaliser (script.py, lines 48-53) *)

(** [max(a, b)] on two floats: the first argument stays unless the second
    is strictly larger. *)
Definition py_max (a b : R) : R := if Rlt_dec a b then b else a.

Definition time_to_expiration (expiration_date reference_date : string)
  : result R :=
  exp_date <- strptime expiration_date ;;
  ref_date <- strptime reference_date ;;
  let t := IZR (days_between exp_date ref_date) / 365.0 in
  Ok (py_max t 0.0001).

(** ** Decoded JSON values and the Python operations applied to them *)

(** What [response.json()] hands back.  A dict is kept as the list of its
    members in order; a key is looked up by its first occurrence. *)
#[local] Unset Elimination Schemes.
Inductive json : Type :=
| JNull
| JBool (b : bool)
| JNum (x : R)
| JStr (s : string)
| JArr (items : list json)
| JObj (members : list (string * json)).
#[local] Set Elimination Schemes.

Fixpoint lookup (key : string) (members : list (string * json)) : option json :=
  match members with
  | [] => None
  | (k, v) :: rest => if String.eqb k key then Some v else lookup key rest
  end.

(** [obj[key]]: only a dict can be subscripted by a string. *)
Definition getitem (obj : json) (key : string) : result json :=
  match obj with
  | JObj members =>
      match lookup key members with
      | Some v => Ok v
      | None => Raise KeyError
      end
  | _ => Raise TypeError
  end.

(** Truth value of an object, as [if obj] and [not obj] take it. *)
Definition truthy (v : json) : bool :=
  match v with
  | JNull => false
  | JBool b => b
  | JNum x => if Req_dec_T x 0 then false else true
  | JStr s => negb (String.eqb s "")
  | JArr items => match items with [] => false | _ :: _ => true end
  | JObj members => match members with [] => false | _ :: _ => true end
  end.

(** [obj == text] for a string literal [text]. *)
Definition eq_str (v : json) (text : string) : bool :=
  match v with
  | JStr s => String.eqb s text
  | _ => false
  end.

(** [len(obj)]. *)
Definition py_len (v : json) : result nat :=
  match v with
  | JArr items => Ok (List.length items)
  | JObj members => Ok (List.length members)
  | JStr s => Ok (String.length s)
  | _ => Raise TypeError
  end.

(** The objects [for option in obj] runs through: the items of a list, the
    keys of a dict, the characters of a string. *)
Definition py_iter (v : json) : result (list json) :=
  match v with
  | JArr items => Ok items
  | JObj members => Ok (map (fun kv => JStr (fst kv)) members)
  | JStr s => Ok (map (fun c => JStr (String c EmptyString)) (list_ascii_of_string s))
  | _ => Raise TypeError
  end.

(** [text.replace('-', '')]; only a string has the method. *)
Definition remove_dashes (v : json) : result string :=
  match v with
  | JStr s =>
      Ok (string_of_list_ascii
            (filter (fun c => negb (Ascii.eqb c "-")) (list_ascii_of_string s)))
  | _ => Raise AttributeError
  end.

(** [str(n)] for an int, as an f-string writes it. *)
Definition str_of_int (n : Z) : string :=
  DecimalString.NilZero.string_of_int (Z.to_int n).

(** ** The scan (script.py, lines 25-109) *)

(** The record the script builds for an undervalued contract (lines 89-102). *)
Record ValuationResult : Type := mkResult {
  RecordId : string;
  UnderlyingTicker : string;
  OptionTicker : string;
  Type_ : string;
  S : R;
  K : R;
  sigma : R;
  r : R;
  t : R;
  MarketPrice : R;
  BlackScholesPrice : R;
  Undervaluation : R
}.

(** What [requests.get] returns: a status code, the body text, and the
    outcome of decoding the body with [response.json()]. *)
Record response : Type := mkResponse {
  status_code : Z;
  text : string;
  json_body : result json
}.

(** The [undervalued_options] collection: the documents inserted so far,
    oldest first.  The store is taken to accept every insert.  The [_id]
    that [insert_one] adds to the dict it is given, and that the copy
    appended to the returned list keeps, is not part of the record. *)
Definition collection : Type := list ValuationResult.

Definition insert_one (db : collection) (doc : ValuationResult) : collection :=
  db ++ [doc].

Section Scanner.

(** The surroundings of the script: the builtin [float] on text, the text an
    f-string writes for an object that is not a string, the HTTP client, and
    the clock ([utcnow n] is the n-th reading of
    [datetime.now(datetime.UTC).isoformat()]). *)
Variable float_of_string : string -> option R.
Variable repr : json -> string.
Variable requests_get : string -> result response.
Variable utcnow : nat -> string.

(** [float(obj)]. *)
Definition py_float (v : json) : result R :=
  match v with
  | JStr s =>
      match float_of_string s with
      | Some x => Ok x
      | None => Raise ValueError
      end
  | JNum x => Ok x
  | JBool b => Ok (if b then 1 else 0)
  | _ => Raise TypeError
  end.

(** [f"{obj}"]. *)
Definition format_value (v : json) : string :=
  match v with
  | JStr s => s
  | _ => repr v
  end.

(** The query of [fetch_dolthub_options] (lines 27-31). *)
Definition query_url (ticker date : string) (limit : Z) : string :=
  ("https://www.dolthub.com/api/v1alpha1/post-no-preference/options/master?"
   ++ "q=SELECT * FROM option_chain WHERE act_symbol = '" ++ ticker ++ "' "
   ++ "AND date = '" ++ date ++ "' LIMIT " ++ str_of_int limit)%string.

(** [data.get("query_execution_status")]: only a dict has the method; a
    missing key gives [None]. *)
Definition dict_get (data : json) (key : string) : result json :=
  match data with
  | JObj members =>
      match lookup key members with
      | Some v => Ok v
      | None => Ok JNull
      end
  | _ => Raise AttributeError
  end.

(** [key in data] for a dict [data]. *)
Definition has_key (data : json) (key : string) : bool :=
  match data with
  | JObj members => match lookup key members with Some _ => true | None => false end
  | _ => false
  end.

(** [fetch_dolthub_options(ticker, date, limit)] (lines 26-46).  The
    [except] clause logs and raises again, so every exception leaves the
    function unchanged. *)
Definition fetch_dolthub_options (ticker date : string) (limit : Z)
  : result json :=
  response <- requests_get (query_url ticker date limit) ;;
  if negb (status_code response =? 200)%Z
  then Raise (Exception ("DoltHub API error: " ++ text response))
  else
    data <- json_body response ;;
    status <- dict_get data "query_execution_status" ;;
    if eq_str status "Success" && has_key data "rows"
    then getitem data "rows"
    else Ok (JArr []).

(** The limit of the query when the caller names none (line 26). *)
Definition default_limit : Z := 100.

(** The spot price the scan prices against (line 72). *)
Definition spot : R := 175.84.

(** Line 80: [(float(option["bid"]) + float(option["ask"])) / 2]. *)
Definition market_price_of (option : json) : result R :=
  bid_v <- getitem option "bid" ;;
  bid <- py_float bid_v ;;
  ask_v <- getitem option "ask" ;;
  ask <- py_float ask_v ;;
  Ok ((bid + ask) / 2).

(** Line 81: [float(option["vol"]) if option["vol"] else sigma_default]. *)
Definition sigma_of (sigma_default : R) (option : json) : result R :=
  vol <- getitem option "vol" ;;
  if truthy vol
  then (vol' <- getitem option "vol" ;; py_float vol')
  else Ok sigma_default.

(** What the loop derives from one contract before it decides
    (lines 76-84). *)
Record valuation : Type := mkValuation {
  v_is_call : bool;
  v_ticker : string;
  v_K : R;
  v_market_price : R;
  v_sigma : R;
  v_t : R;
  v_bs_price : R
}.

(** Lines 76-84: the pricing inputs of a contract, its market price and
    its theoretical price. *)
Definition evaluate (underlying_ticker : string) (S r sigma_default : R)
    (test_date : string) (option : json) : result valuation :=
  call_put <- getitem option "call_put" ;;
  let is_call := eq_str call_put "Call" in
  expiration <- getitem option "expiration" ;;
  expiration_digits <- remove_dashes expiration ;;
  strike <- getitem option "strike" ;;
  let ticker :=
    (underlying_ticker ++ expiration_digits
       ++ (if is_call then "C" else "P") ++ format_value strike)%string in
  K <- py_float strike ;;
  let expiration_date := match expiration with JStr s => s | _ => ""%string end in
  market_price <- market_price_of option ;;
  sigma <- sigma_of sigma_default option ;;
  t <- time_to_expiration expiration_date test_date ;;
  bs_price <- (if is_call then black_scholes_call S K sigma r t
               else black_scholes_put S K sigma r t) ;;
  Ok (mkValuation is_call ticker K market_price sigma t bs_price).

(** Lines 88-102: the decision and the record of an undervalued contract;
    [now] is the clock reading that becomes the [RecordId]. *)
Definition decide (underlying_ticker : string) (S r : R) (now : string)
    (v : valuation) : Datatypes.option ValuationResult :=
  if Rlt_dec (v_market_price v) (v_bs_price v)
  then Some {|
         RecordId := now;
         UnderlyingTicker := underlying_ticker;
         OptionTicker := v_ticker v;
         Type_ := if v_is_call v then "Call" else "Put";
         S := S;
         K := v_K v;
         sigma := v_sigma v;
         r := r;
         t := v_t v;
         MarketPrice := v_market_price v;
         BlackScholesPrice := v_bs_price v;
         Undervaluation := v_bs_price v - v_market_price v |}
  else None.

(** The body of the loop for one contract, without the insert and the
    append: [None] when the contract is not undervalued. *)
Definition classify (underlying_ticker : string) (S r sigma_default : R)
    (test_date : string) (now : string) (option : json)
  : result (Datatypes.option ValuationResult) :=
  v <- evaluate underlying_ticker S r sigma_default test_date option ;;
  Ok (decide underlying_ticker S r now v).

(** The loop of lines 75-106: every undervalued contract is inserted into
    the collection and appended to the list.  An exception ends the scan;
    what was inserted before it stays inserted. *)
Fixpoint scan_loop (underlying_ticker : string) (r sigma_default : R)
    (test_date : string) (options_data : list json)
    (undervalued_options : list ValuationResult) (db : collection)
  : result (list ValuationResult) * collection :=
  match options_data with
  | [] => (Ok undervalued_options, db)
  | option :: rest =>
      match classify underlying_ticker spot r sigma_default test_date
              (utcnow (List.length undervalued_options)) option with
      | Raise e => (Raise e, db)
      | Ok None =>
          scan_loop underlying_ticker r sigma_default test_date rest
            undervalued_options db
      | Ok (Some result) =>
          scan_loop underlying_ticker r sigma_default test_date rest
            (undervalued_options ++ [result]) (insert_one db result)
      end
  end.

(** [scan_options(underlying_ticker, r, sigma_default, test_date)]
    (lines 56-109), run against the collection [db]: the value returned or
    the exception raised, and the collection afterwards. *)
Definition scan_options (underlying_ticker : string) (r sigma_default : R)
    (test_date : string) (db : collection)
  : result (list ValuationResult) * collection :=
  match fetch_dolthub_options underlying_ticker test_date default_limit with
  | Raise e => (Raise e, db)
  | Ok options_data =>
      match py_len options_data with            (* the log line of line 63 *)
      | Raise e => (Raise e, db)
      | Ok _ =>
          if negb (truthy options_data) then (Ok [], db)
          else
            match py_iter options_data with
            | Raise e => (Raise e, db)
            | Ok rows =>
                scan_loop underlying_ticker r sigma_default test_date rows [] db
            end
      end
  end.

(** [res] is the record the loop builds for some contract it finds
    undervalued. *)
Definition flagged (underlying_ticker : string) (r0 sigma_default : R)
    (test_date : string) (res : ValuationResult) : Prop :=
  exists option now,
    classify underlying_ticker spot r0 sigma_default test_date now option
    = Ok (Some res).

End Scanner.

(** The payload of a successful query: a dict whose
    ["query_execution_status"] is ["Success"] and that has ["rows"]. *)
Definition success_payload (data : json) : bool :=
  match data with
  | JObj members =>
      match lookup "query_execution_status" members with
      | Some status => eq_str status "Success" && has_key data "rows"
      | None => false
      end
  | _ => false
  end.

Definition is_dict (data : json) : bool :=
  match data with
  | JObj _ => true
  | _ => false
  end.

(** The data source failed: the request raised, the status is not 200, the
    body is not JSON, or the payload is not that of a successful query. *)
Definition source_failed (answer : result response) : Prop :=
  match answer with
  | Raise _ => True
  | Ok resp =>
      status_code resp <> 200%Z
      \/ match json_body resp with
         | Raise _ => True
         | Ok data => success_payload data = false
         end
  end.

(** ** The entry point (script.py, lines 111-122) *)

(** What a run leaves on the terminal: the two printed texts, or the
    exception the [except] clause logs. *)
Inductive report : Type :=
| Printed (count_line dump : string)
| Logged (e : exn).

(** The [__main__] block: one scan with the fixed arguments; [dumps] is
    [json.dumps(undervalued, indent=2, default=str)]. *)
Definition main (float_of_string : string -> option R)
    (repr : json -> string) (requests_get : string -> result response)
    (utcnow : nat -> string) (dumps : list ValuationResult -> string)
    (db : collection) : report * collection :=
  let underlying_ticker := "AAPL"%string in
  let r := 0.05 in
  let sigma_default := 0.3 in
  let test_date := "2023-10-18"%string in
  match scan_options float_of_string repr requests_get utcnow
          underlying_ticker r sigma_default test_date db with
  | (Ok undervalued, db') =>
      (Printed
         ("Found " ++ str_of_int (Z.of_nat (List.length undervalued))
          ++ " undervalued options:")%string
         (dumps undervalued),
       db')
  | (Raise e, db') => (Logged e, db')
  end.

(** ** A sample of the surroundings

    A reading of plain decimal literals for [float], a clock, and answers of
    the data source: enough to run the scan on concrete chains. *)

Module Sample.

#[local] Open Scope Z_scope.
#[local] Open Scope string_scope.

(** Reads a run of digits: the value read, the number of digits, the rest. *)
Fixpoint scan_digits (cs : list ascii) (acc : Z) (n : nat)
  : Z * nat * list ascii :=
  match cs with
  | c :: rest =>
      if is_digit c
      then scan_digits rest (10 * acc + digit_value c) (n + 1)%nat
      else (acc, n, cs)
  | [] => (acc, n, [])
  end.

(** [-]digits[.digits] as a fraction: numerator and denominator. *)
Definition parse_decimal (s : string) : option (Z * Z) :=
  let cs := list_ascii_of_string s in
  let '(sign, body) :=
    match cs with
    | "-"%char :: rest => (-1, rest)
    | _ => (1, cs)
    end in
  let '(int_part, n_int, rest) := scan_digits body 0 0%nat in
  match n_int with
  | O => None
  | _ =>
      match rest with
      | [] => Some (sign * int_part, 1)
      | "."%char :: frac =>
          let '(all_digits, n_frac, rest') := scan_digits frac int_part 0%nat in
          match rest' with
          | [] => Some (sign * all_digits, 10 ^ Z.of_nat n_frac)
          | _ :: _ => None
          end
      | _ :: _ => None
      end
  end.

Definition float_of_decimal (s : string) : option R :=
  match parse_decimal s with
  | Some (num, den) => Some (IZR num / IZR den)%R
  | None => None
  end.

Definition repr (v : json) : string :=
  match v with
  | JNull => "None"
  | JBool true => "True"
  | JBool false => "False"
  | _ => "<object>"
  end.

Definition clock (n : nat) : string := "2023-10-18T21:00:00+00:00".

(** An at-the-money call quoted at zero, one month from expiry. *)
Definition at_the_money_call : json :=
  JObj [("date", JStr "2023-10-18"); ("act_symbol", JStr "AAPL");
        ("expiration", JStr "2023-11-17"); ("strike", JStr "175.84");
        ("call_put", JStr "Call"); ("bid", JStr "0.00"); ("ask", JStr "0.00");
        ("vol", JStr "0.5000")].

(** A put whose volatility is missing from the data. *)
Definition put_without_vol : json :=
  JObj [("date", JStr "2023-10-18"); ("act_symbol", JStr "AAPL");
        ("expiration", JStr "2023-11-17"); ("strike", JStr "170.00");
        ("call_put", JStr "Put"); ("bid", JStr "2.10"); ("ask", JStr "2.20");
        ("vol", JNull)].

(** The same put in a row that has no ["vol"] member at all. *)
Definition put_missing_vol : json :=
  JObj [("date", JStr "2023-10-18"); ("act_symbol", JStr "AAPL");
        ("expiration", JStr "2023-11-17"); ("strike", JStr "170.00");
        ("call_put", JStr "Put"); ("bid", JStr "2.10"); ("ask", JStr "2.20")].

(** The answer of the data source to a successful query. *)
Definition chain_response (rows : list json) : response :=
  {| status_code := 200;
     text := "{...}";
     json_body := Ok (JObj [("query_execution_status", JStr "Success");
                            ("query_execution_message", JStr "");
                            ("rows", JArr rows)]) |}.

(** The answer to a query the data source could not run: HTTP status 200
    and the failure reported in the payload. *)
Definition query_error_response : response :=
  {| status_code := 200;
     text := "{...}";
     json_body := Ok (JObj [("query_execution_status", JStr "Error");
                            ("query_execution_message",
                             JStr "table not found: option_chain")]) |}.

(** A data source that answers every query with the same response. *)
Definition always (answer : result response) : string -> result response :=
  fun _ => answer.

Definition scan (answer : result response) (underlying_ticker : string)
    (r sigma_default : R) (test_date : string) (db : collection) :=
  scan_options float_of_decimal repr (always answer) clock
    underlying_ticker r sigma_default test_date db.

#[local] Open Scope R_scope.

(** What the loop derives from the sample call. *)
Definition at_the_money_valuation (underlying_ticker : string) : valuation :=
  {| v_is_call := true;
     v_ticker := (underlying_ticker ++ "20231117C175.84")%string;
     v_K := 175.84;
     v_market_price := 0;
     v_sigma := 0.5;
     v_t := 30 / 365;
     v_bs_price := BlackScholes.call norm_cdf 175.84 175.84 0.5 0.05 (30 / 365) |}.

(** The record of the sample call. *)
Definition at_the_money_record (underlying_ticker : string)
  : ValuationResult :=
  {| RecordId := clock 0;
     UnderlyingTicker := underlying_ticker;
     OptionTicker := (underlying_ticker ++ "20231117C175.84")%string;
     Type_ := "Call";
     S := 175.84;
     K := 175.84;
     sigma := 0.5;
     r := 0.05;
     t := 30 / 365;
     MarketPrice := 0;
     BlackScholesPrice :=
       BlackScholes.call norm_cdf 175.84 175.84 0.5 0.05 (30 / 365);
     Undervaluation :=
       BlackScholes.call norm_cdf 175.84 175.84 0.5 0.05 (30 / 365) - 0 |}.

(** What the loop derives from the sample put, whose volatility is null. *)
Definition put_without_vol_valuation (underlying_ticker : string)
  : valuation :=
  {| v_is_call := false;
     v_ticker := (underlying_ticker ++ "20231117P170.00")%string;
     v_K := 170;
     v_market_price := (2.10 + 2.20) / 2;
     v_sigma := 0.3;
     v_t := 30 / 365;
     v_bs_price := BlackScholes.put norm_cdf 175.84 170 0.3 0.05 (30 / 365) |}.

End Sample.

(** * Properties *)

(** ** Calendar arithmetic *)

Open Scope Z_scope.

Ltac month_cases m :=
  let H := fresh "Hm" in
  assert (H : m = 1 \/ m = 2 \/ m = 3 \/ m = 4 \/ m = 5 \/ m = 6 \/ m = 7
              \/ m = 8 \/ m = 9 \/ m = 10 \/ m = 11 \/ m = 12) by lia;
  repeat (destruct H as [H | H]; [subst m |]); [.. | subst m].

Lemma valid_date_bounds (d : date) :
  valid_date d = true ->
  1 <= year d <= 9999 /\ 1 <= month d <= 12
  /\ 1 <= day d <= days_in_month (year d) (month d).
Proof.
  unfold valid_date. rewrite !andb_true_iff, !Z.leb_le. lia.
Qed.

Lemma days_before_year_succ (y : Z) :
  days_before_year (y + 1)
  = days_before_year y + 365 + (if is_leap y then 1 else 0).
Proof.
  unfold days_before_year, is_leap.
  replace (y + 1 - 1) with y by lia.
  destruct (Z.eqb_spec (y mod 4) 0), (Z.eqb_spec (y mod 100) 0),
    (Z.eqb_spec (y mod 400) 0); cbn [andb orb negb];
    Z.div_mod_to_equations; lia.
Qed.

Lemma days_before_year_mono (y1 y2 : Z) :
  y1 <= y2 -> days_before_year y1 <= days_before_year y2.
Proof. unfold days_before_year. intro H. Z.div_mod_to_equations. lia. Qed.

Lemma month_fits_in_year (y m : Z) :
  1 <= m <= 12 ->
  days_before_month y m + days_in_month y m
  <= 365 + (if is_leap y then 1 else 0).
Proof.
  intro Hm. month_cases m;
    unfold days_before_month, days_in_month; simpl; destruct (is_leap y); lia.
Qed.

Lemma days_before_month_nonneg (y m : Z) : 0 <= days_before_month y m.
Proof.
  unfold days_before_month.
  destruct ((2 <? m) && is_leap y); destruct m as [| p | p]; try lia;
    repeat (destruct p as [p | p |]; try lia).
Qed.

Lemma month_before_month (y m1 m2 : Z) :
  1 <= m1 -> m1 < m2 -> m2 <= 12 ->
  days_before_month y m1 + days_in_month y m1 <= days_before_month y m2.
Proof.
  intros H1 H12 H2.
  month_cases m1; month_cases m2; try lia;
    unfold days_before_month, days_in_month; simpl; destruct (is_leap y); lia.
Qed.

Lemma toordinal_lt (a b : date) :
  valid_date a = true -> valid_date b = true ->
  date_compare a b = Lt -> toordinal a < toordinal b.
Proof.
  intros Ha Hb.
  apply valid_date_bounds in Ha, Hb.
  destruct a as [ya ma da], b as [yb mb db]. simpl in *.
  unfold date_compare, toordinal. simpl.
  destruct (Z.compare_spec ya yb) as [Hy | Hy | Hy]; try discriminate.
  - subst yb.
    destruct (Z.compare_spec ma mb) as [Hm | Hm | Hm]; try discriminate.
    + subst mb. rewrite Z.compare_lt_iff. lia.
    + intros _.
      pose proof (month_before_month ya ma mb). lia.
  - intros _.
    pose proof (month_fits_in_year ya ma).
    pose proof (days_before_year_succ ya).
    pose proof (days_before_year_mono (ya + 1) yb).
    pose proof (days_before_month_nonneg yb mb).
    lia.
Qed.

Lemma date_compare_eq (a b : date) : date_compare a b = Eq -> a = b.
Proof.
  destruct a as [ya ma da], b as [yb mb db]. unfold date_compare. simpl.
  destruct (Z.compare_spec ya yb); try discriminate.
  destruct (Z.compare_spec ma mb); try discriminate.
  intro Hd. apply Z.compare_eq in Hd. congruence.
Qed.

Lemma date_compare_antisym (a b : date) :
  date_compare b a = CompOpp (date_compare a b).
Proof.
  destruct a as [ya ma da], b as [yb mb db]. unfold date_compare. simpl.
  rewrite (Z.compare_antisym ya yb), (Z.compare_antisym ma mb),
    (Z.compare_antisym da db).
  destruct (ya ?= yb); simpl; try reflexivity.
  destruct (ma ?= mb); reflexivity.
Qed.

(** The ordinal follows the calendar order. *)
Lemma on_or_before_ordinal (a b : date) :
  valid_date a = true -> valid_date b = true ->
  (on_or_before a b <-> days_between a b <= 0).
Proof.
  intros Ha Hb. unfold on_or_before, days_between.
  destruct (date_compare a b) eqn:Hc.
  - apply date_compare_eq in Hc. subst b. split; [lia | discriminate].
  - pose proof (toordinal_lt a b Ha Hb Hc). split; [lia | discriminate].
  - assert (Hc' : date_compare b a = Lt)
      by (rewrite date_compare_antisym, Hc; reflexivity).
    pose proof (toordinal_lt b a Hb Ha Hc'). split; [congruence | lia].
Qed.

Lemma strptime_valid (text : string) (d : date) :
  strptime text = Ok d -> valid_date d = true.
Proof.
  unfold strptime.
  destruct (re_date (list_ascii_of_string text)) as [| [d' rest] l];
    [discriminate |].
  destruct rest; [| discriminate].
  destruct (valid_date d') eqn:Hv; [| discriminate].
  intro H. injection H as <-. exact Hv.
Qed.

Lemma strptime_raises (text : string) (e : exn) :
  strptime text = Raise e -> e = ValueError.
Proof.
  unfold strptime.
  destruct (re_date (list_ascii_of_string text)) as [| [d' rest] l];
    [congruence |].
  destruct rest; [| congruence].
  destruct (valid_date d'); congruence.
Qed.

Open Scope R_scope.

(** ** The texts [strptime] accepts *)

Open Scope Z_scope.

Lemma digit_char_spec (n : Z) :
  0 <= n <= 9 ->
  is_digit (digit_char n) = true /\ digit_value (digit_char n) = n.
Proof.
  intro Hn. destruct n as [| p | p]; [split; reflexivity | | lia].
  repeat (destruct p as [p | p |]; try lia); split; reflexivity.
Qed.

Lemma re_year_digits (a b c e : Z) (rest : list ascii) :
  0 <= a <= 9 -> 0 <= b <= 9 -> 0 <= c <= 9 -> 0 <= e <= 9 ->
  re_year (digit_char a :: digit_char b :: digit_char c :: digit_char e :: rest)
  = [(1000 * a + 100 * b + 10 * c + e, rest)].
Proof.
  intros Ha Hb Hc He. unfold re_year.
  destruct (digit_char_spec a Ha) as [-> ->].
  destruct (digit_char_spec b Hb) as [-> ->].
  destruct (digit_char_spec c Hc) as [-> ->].
  destruct (digit_char_spec e He) as [-> ->].
  reflexivity.
Qed.

(** The part of the match after the year, on a month and a day written
    with two digits each: the first match reads them back. *)
Lemma re_month_day (y m d : Z) :
  1 <= m <= 12 -> 1 <= d <= 31 ->
  exists others,
    seq (re_lit "-") (fun _ =>
    seq re_month (fun m' =>
    seq (re_lit "-") (fun _ =>
    seq re_day (fun d' => ret (mkdate y m' d')))))
      ("-"%char :: two_digit_text m ++ "-"%char :: two_digit_text d)
    = (mkdate y m d, []) :: others.
Proof.
  intros Hm Hd.
  assert (Hd' : d = 1 \/ d = 2 \/ d = 3 \/ d = 4 \/ d = 5 \/ d = 6 \/ d = 7
                \/ d = 8 \/ d = 9 \/ d = 10 \/ d = 11 \/ d = 12 \/ d = 13
                \/ d = 14 \/ d = 15 \/ d = 16 \/ d = 17 \/ d = 18 \/ d = 19
                \/ d = 20 \/ d = 21 \/ d = 22 \/ d = 23 \/ d = 24 \/ d = 25
                \/ d = 26 \/ d = 27 \/ d = 28 \/ d = 29 \/ d = 30 \/ d = 31)
    by lia.
  month_cases m;
    repeat (destruct Hd' as [Hd' | Hd']; [subst d; eexists; reflexivity |]);
    subst d; eexists; reflexivity.
Qed.

Lemma days_in_month_le (y m : Z) : days_in_month y m <= 31.
Proof.
  unfold days_in_month.
  destruct m as [| p | p]; try lia;
    repeat (destruct p as [p | p |]; try lia); destruct (is_leap y); lia.
Qed.

(** Every calendar date, written the ISO way, is accepted and read back. *)
Lemma strptime_isoformat (d : date) :
  valid_date d = true -> strptime (isoformat d) = Ok d.
Proof.
  intro Hv. pose proof (valid_date_bounds d Hv) as (Hy & Hm & Hd).
  pose proof (days_in_month_le (year d) (month d)) as Hle.
  destruct d as [y m dd]. simpl in *.
  unfold strptime, isoformat. simpl year. simpl month. simpl day.
  rewrite list_ascii_of_string_of_list_ascii.
  unfold re_date. unfold seq at 1.
  rewrite re_year_digits by (Z.div_mod_to_equations; lia).
  replace (1000 * (y / 1000) + 100 * (y / 100 mod 10)
           + 10 * (y / 10 mod 10) + y mod 10) with y
    by (Z.div_mod_to_equations; lia).
  cbn [flat_map]. rewrite app_nil_r.
  destruct (re_month_day y m dd) as [others ->]; [lia | lia |].
  rewrite Hv. reflexivity.
Qed.

Open Scope R_scope.

(** ** Pricing model *)

(** C1.  On the domain of the model ([S], [K], [sigma], [t] strictly
    positive) [black_scholes_call] returns the Black-Scholes value of a
    European call, [S * Phi d1 - K * exp (- r t) * Phi d2] with
    [d1 = (ln (S / K) + (r + sigma^2 / 2) t) / (sigma * sqrt t)] and
    [d2 = d1 - sigma * sqrt t], and [black_scholes_put] returns
    [K * exp (- r t) * Phi (- d2) - S * Phi (- d1)] with the same [d1], [d2];
    [Phi] is the standard normal distribution function. *)
Theorem black_scholes_formulas (S K sigma r t : R) :
  0 < S -> 0 < K -> 0 < sigma -> 0 < t ->
  let d1 := (ln (S / K) + (r + sigma ^ 2 / 2) * t) / (sigma * sqrt t) in
  let d2 := d1 - sigma * sqrt t in
  black_scholes_call S K sigma r t
  = Ok (S * Normal.cdf d1 - K * exp (- (r * t)) * Normal.cdf d2)
  /\ black_scholes_put S K sigma r t
     = Ok (K * exp (- (r * t)) * Normal.cdf (- d2) - S * Normal.cdf (- d1)).
Proof.
  intros HS HK Hsigma Ht d1 d2.
  assert (HK0 : K <> 0) by lra.
  rewrite (black_scholes_call_eq S K sigma r t HK0),
    (black_scholes_put_eq S K sigma r t HK0).
  unfold BlackScholes.call, BlackScholes.put, BlackScholes.d2,
    BlackScholes.d1, norm_cdf.
  subst d2 d1.
  replace (sigma ^ 2 / 2) with (sigma * sigma / 2) by lra.
  split; reflexivity.
Qed.

Lemma black_scholes_formulas_witness :
  let d1 := (ln (175.84 / 170) + (0.05 + 0.25 ^ 2 / 2) * 0.0849)
            / (0.25 * sqrt 0.0849) in
  let d2 := d1 - 0.25 * sqrt 0.0849 in
  black_scholes_call 175.84 170 0.25 0.05 0.0849
  = Ok (175.84 * Normal.cdf d1
        - 170 * exp (- (0.05 * 0.0849)) * Normal.cdf d2)
  /\ black_scholes_put 175.84 170 0.25 0.05 0.0849
     = Ok (170 * exp (- (0.05 * 0.0849)) * Normal.cdf (- d2)
           - 175.84 * Normal.cdf (- d1)).
Proof.
  apply (black_scholes_formulas 175.84 170 0.25 0.05 0.0849); lra.
Defined.

(** C4.  Put-call parity: on the domain of the model the call price minus
    the put price is [S - K * exp (- r t)]; the identity is exact over the
    reals, hence within every tolerance. *)
Theorem put_call_parity (S K sigma r t : R) :
  0 < S -> 0 < K -> 0 < sigma -> 0 < t ->
  exists call put : R,
    black_scholes_call S K sigma r t = Ok call
    /\ black_scholes_put S K sigma r t = Ok put
    /\ call - put = S - K * exp (- (r * t)).
Proof.
  intros HS HK Hsigma Ht.
  assert (HK0 : K <> 0) by lra.
  exists (BlackScholes.call norm_cdf S K sigma r t),
    (BlackScholes.put norm_cdf S K sigma r t).
  split; [apply black_scholes_call_eq; exact HK0 |].
  split; [apply black_scholes_put_eq; exact HK0 |].
  apply parity_identity.
Qed.

Lemma put_call_parity_witness :
  exists call put : R,
    black_scholes_call 175.84 170 0.25 0.05 0.0849 = Ok call
    /\ black_scholes_put 175.84 170 0.25 0.05 0.0849 = Ok put
    /\ call - put = 175.84 - 170 * exp (- (0.05 * 0.0849)).
Proof.
  apply (put_call_parity 175.84 170 0.25 0.05 0.0849); lra.
Defined.

(** ** Time normaliser *)

Lemma py_max_clamp (x : R) : x <= 0 -> py_max x 0.0001 = 0.0001.
Proof. intro Hx. unfold py_max. destruct (Rlt_dec x 0.0001); lra. Qed.

Lemma py_max_keep (x : R) : 0.0001 <= x -> py_max x 0.0001 = x.
Proof. intro Hx. unfold py_max. destruct (Rlt_dec x 0.0001); lra. Qed.

Lemma year_fraction_sign (n : Z) :
  ((n <= 0)%Z -> IZR n / 365.0 <= 0)
  /\ ((0 < n)%Z -> 0.0001 <= IZR n / 365.0).
Proof.
  split; intro Hn.
  - apply IZR_le in Hn. lra.
  - assert (H1 : (1 <= n)%Z) by lia. apply IZR_le in H1. lra.
Qed.

(** C3.  For two parseable dates [time_to_expiration] returns the day
    difference (expiration minus reference) divided by 365.0, clamped from
    below: the result is strictly positive, it is exactly 0.0001 when the
    expiration is on or before the reference date, and it is the quotient
    itself otherwise. *)
Theorem time_to_expiration_value (expiration reference : string)
    (e d : date) :
  strptime expiration = Ok e -> strptime reference = Ok d ->
  exists v : R,
    time_to_expiration expiration reference = Ok v
    /\ v = py_max (IZR (days_between e d) / 365.0) 0.0001
    /\ 0 < v
    /\ (on_or_before e d -> v = 0.0001)
    /\ (~ on_or_before e d -> v = IZR (days_between e d) / 365.0).
Proof.
  intros He Hd.
  pose proof (strptime_valid _ _ He) as Ve.
  pose proof (strptime_valid _ _ Hd) as Vd.
  pose proof (on_or_before_ordinal e d Ve Vd) as Hord.
  destruct (year_fraction_sign (days_between e d)) as [Hneg Hpos].
  exists (py_max (IZR (days_between e d) / 365.0) 0.0001).
  split; [unfold time_to_expiration; rewrite He, Hd; reflexivity |].
  split; [reflexivity |].
  destruct (Z_le_gt_dec (days_between e d) 0) as [Hle | Hgt].
  - rewrite (py_max_clamp _ (Hneg Hle)).
    split; [lra |]. split; [reflexivity |].
    intro Hn. exfalso. apply Hn, Hord, Hle.
  - assert (H0 : (0 < days_between e d)%Z) by lia.
    rewrite (py_max_keep _ (Hpos H0)).
    split; [specialize (Hpos H0); lra |]. split; [| reflexivity].
    intro Hb. apply Hord in Hb. lia.
Qed.

Lemma time_to_expiration_value_witness :
  exists v : R,
    time_to_expiration "2023-10-18" "2023-10-18" = Ok v
    /\ v = py_max (IZR (days_between (mkdate 2023 10 18) (mkdate 2023 10 18))
                   / 365.0) 0.0001
    /\ 0 < v
    /\ (on_or_before (mkdate 2023 10 18) (mkdate 2023 10 18) -> v = 0.0001)
    /\ (~ on_or_before (mkdate 2023 10 18) (mkdate 2023 10 18) ->
        v = IZR (days_between (mkdate 2023 10 18) (mkdate 2023 10 18)) / 365.0).
Proof.
  apply (time_to_expiration_value "2023-10-18" "2023-10-18"); reflexivity.
Defined.

Lemma not_parseable_raises (text : string) :
  ~ parseable text <-> strptime text = Raise ValueError.
Proof.
  split.
  - intro Hn. destruct (strptime text) as [d | e] eqn:Hs.
    + exfalso. apply Hn. exists d. exact Hs.
    + rewrite (strptime_raises _ _ Hs). reflexivity.
  - intros Hr [d Hd]. congruence.
Qed.

(** C8.  [time_to_expiration] raises exactly when one of its two arguments
    is not a parseable calendar date; the exception is then the
    [ValueError] of [strptime] (the date-format error), and no other
    exception leaves the function. *)
Theorem time_to_expiration_failure (expiration reference : string) :
  (time_to_expiration expiration reference = Raise ValueError
   <-> ~ parseable expiration \/ ~ parseable reference)
  /\ (parseable expiration /\ parseable reference
      <-> exists v, time_to_expiration expiration reference = Ok v)
  /\ (forall ex, time_to_expiration expiration reference = Raise ex ->
      ex = ValueError).
Proof.
  unfold time_to_expiration.
  rewrite !not_parseable_raises. unfold parseable.
  destruct (strptime expiration) as [e | ee] eqn:He;
    destruct (strptime reference) as [d | ed] eqn:Hd; unfold bind.
  - split; [| split].
    + split; [discriminate | intros [H | H]; discriminate].
    + split; eauto.
    + discriminate.
  - rewrite (strptime_raises _ _ Hd). split; [| split].
    + split; auto.
    + split; [intros [_ [x Hx]]; discriminate | intros [v Hv]; discriminate].
    + congruence.
  - rewrite (strptime_raises _ _ He). split; [| split].
    + split; auto.
    + split; [intros [[x Hx] _]; discriminate | intros [v Hv]; discriminate].
    + congruence.
  - rewrite (strptime_raises _ _ He). split; [| split].
    + split; auto.
    + split; [intros [[x Hx] _]; discriminate | intros [v Hv]; discriminate].
    + congruence.
Qed.

(** On two calendar dates written the ISO way the function returns. *)
Lemma time_to_expiration_on_dates (e d : date) :
  valid_date e = true -> valid_date d = true ->
  time_to_expiration (isoformat e) (isoformat d)
  = Ok (py_max (IZR (days_between e d) / 365.0) 0.0001).
Proof.
  intros He Hd. unfold time_to_expiration.
  rewrite (strptime_isoformat e He), (strptime_isoformat d Hd).
  reflexivity.
Qed.

Example same_day_is_clamped :
  time_to_expiration "2023-10-18" "2023-10-18" = Ok 0.0001.
Proof.
  assert (E : time_to_expiration "2023-10-18" "2023-10-18"
              = Ok (py_max (IZR 0 / 365.0) 0.0001)) by reflexivity.
  rewrite E, py_max_clamp by lra. reflexivity.
Qed.

(** ** Classifier and scan *)

Lemma bind_ok {A B : Type} (c : result A) (k : A -> result B) (b : B) :
  bind c k = Ok b -> exists a, c = Ok a /\ k a = Ok b.
Proof.
  destruct c as [a | e]; simpl; [| discriminate].
  intro H. exists a. split; [reflexivity | exact H].
Qed.

Ltac bind_inv H :=
  let a := fresh "a" in
  let Ha := fresh "E" in
  apply bind_ok in H; destruct H as [a [Ha H]].

Section ScanProperties.

Variable float_of_string : string -> option R.
Variable repr : json -> string.
Variable requests_get : string -> result response.
Variable utcnow : nat -> string.

(** What [evaluate] has computed when it returns. *)
Lemma evaluate_ok (underlying_ticker : string) (S r sigma_default : R)
    (test_date : string) (option : json) (v : valuation) :
  evaluate float_of_string repr underlying_ticker S r sigma_default
    test_date option = Ok v ->
  exists call_put expiration strike,
    getitem option "call_put" = Ok call_put
    /\ v_is_call v = eq_str call_put "Call"
    /\ getitem option "expiration" = Ok (JStr expiration)
    /\ getitem option "strike" = Ok strike
    /\ py_float float_of_string strike = Ok (v_K v)
    /\ market_price_of float_of_string option = Ok (v_market_price v)
    /\ sigma_of float_of_string sigma_default option = Ok (v_sigma v)
    /\ time_to_expiration expiration test_date = Ok (v_t v)
    /\ (if v_is_call v
        then black_scholes_call S (v_K v) (v_sigma v) r (v_t v)
        else black_scholes_put S (v_K v) (v_sigma v) r (v_t v))
       = Ok (v_bs_price v).
Proof.
  unfold evaluate. intro H.
  bind_inv H. rename a into call_put, E into Ecp.
  bind_inv H. rename a into expiration, E into Eexp.
  bind_inv H. rename a into digits, E into Edig.
  bind_inv H. rename a into strike, E into Estrike.
  bind_inv H. rename a into K0, E into EK.
  bind_inv H. rename a into market, E into Emarket.
  bind_inv H. rename a into sigma0, E into Esigma.
  bind_inv H. rename a into t0, E into Et.
  bind_inv H. rename a into bs, E into Ebs.
  injection H as <-. simpl.
  destruct expiration as [| b | x | s | items | members]; try discriminate.
  exists call_put, s, strike. repeat (split; [assumption || reflexivity |]).
  assumption.
Qed.

Lemma decide_flag (underlying_ticker : string) (S r : R) (now : string)
    (v : valuation) :
  v_market_price v < v_bs_price v ->
  exists res,
    decide underlying_ticker S r now v = Some res
    /\ MarketPrice res = v_market_price v
    /\ BlackScholesPrice res = v_bs_price v
    /\ Undervaluation res = v_bs_price v - v_market_price v.
Proof.
  intro Hlt. unfold decide.
  destruct (Rlt_dec (v_market_price v) (v_bs_price v)) as [_ | Hn];
    [| contradiction].
  eexists. split; [reflexivity |]. simpl. auto.
Qed.

Lemma decide_pass (underlying_ticker : string) (S r : R) (now : string)
    (v : valuation) :
  v_bs_price v <= v_market_price v ->
  decide underlying_ticker S r now v = None.
Proof.
  intro Hge. unfold decide.
  destruct (Rlt_dec (v_market_price v) (v_bs_price v)) as [Hlt | _];
    [lra | reflexivity].
Qed.

(** Every field of a record that [decide] builds. *)
Lemma decide_some (underlying_ticker : string) (S0 r0 : R) (now : string)
    (v : valuation) (res : ValuationResult) :
  decide underlying_ticker S0 r0 now v = Some res ->
  v_market_price v < v_bs_price v
  /\ RecordId res = now
  /\ UnderlyingTicker res = underlying_ticker
  /\ OptionTicker res = v_ticker v
  /\ Type_ res = (if v_is_call v then "Call" else "Put")%string
  /\ S res = S0 /\ K res = v_K v /\ sigma res = v_sigma v
  /\ r res = r0 /\ t res = v_t v
  /\ MarketPrice res = v_market_price v
  /\ BlackScholesPrice res = v_bs_price v
  /\ Undervaluation res = v_bs_price v - v_market_price v.
Proof.
  unfold decide.
  destruct (Rlt_dec (v_market_price v) (v_bs_price v)) as [Hlt | _];
    [| discriminate].
  intro H. injection H as <-. simpl. repeat (split; [assumption || reflexivity |]).
  reflexivity.
Qed.

Lemma classify_some (underlying_ticker : string) (S0 r0 sigma_default : R)
    (test_date now : string) (option : json) (res : ValuationResult) :
  classify float_of_string repr underlying_ticker S0 r0 sigma_default
    test_date now option = Ok (Some res) ->
  exists v,
    evaluate float_of_string repr underlying_ticker S0 r0 sigma_default
      test_date option = Ok v
    /\ decide underlying_ticker S0 r0 now v = Some res.
Proof.
  unfold classify. intro H. bind_inv H.
  exists a. split; [assumption | congruence].
Qed.

(** The loop appends the same records, in the same order, to the list it
    returns and to the collection; there is at most one per row. *)
Lemma scan_loop_spec (underlying_ticker : string) (r0 sigma_default : R)
    (test_date : string) (rows : list json) :
  forall (acc : list ValuationResult) (db : collection) out db',
    scan_loop float_of_string repr utcnow underlying_ticker r0 sigma_default
      test_date rows acc db = (out, db') ->
    exists new,
      db' = db ++ new
      /\ (List.length new <= List.length rows)%nat
      /\ Forall (flagged float_of_string repr underlying_ticker r0 sigma_default
              test_date) new
      /\ (forall results, out = Ok results -> results = acc ++ new).
Proof.
  induction rows as [| row rows IH]; intros acc db out db' Hloop;
    simpl in Hloop.
  - injection Hloop as <- <-. exists []. rewrite !app_nil_r.
    repeat split; auto. intros results Hr. congruence.
  - destruct (classify float_of_string repr underlying_ticker spot r0
                sigma_default test_date (utcnow (List.length acc)) row)
      as [[res |] | e] eqn:Hc.
    + apply IH in Hloop. destruct Hloop as (new & Hdb & Hlen & Hall & Hres).
      exists (res :: new). unfold insert_one in Hdb.
      rewrite <- app_assoc in Hdb. simpl in Hdb.
      split; [exact Hdb |]. split; [simpl; lia |]. split.
      * constructor; [| exact Hall].
        exists row, (utcnow (List.length acc)). exact Hc.
      * intros results Hr. rewrite (Hres results Hr), <- app_assoc.
        reflexivity.
    + apply IH in Hloop. destruct Hloop as (new & Hdb & Hlen & Hall & Hres).
      exists new. split; [exact Hdb |]. split; [simpl; lia |].
      split; [exact Hall | exact Hres].
    + injection Hloop as <- <-. exists []. rewrite app_nil_r.
      repeat split; auto; [simpl; lia |]. intros results Hr. discriminate.
Qed.

Lemma py_iter_length (data : json) (rows : list json) (n : nat) :
  py_iter data = Ok rows -> py_len data = Ok n -> List.length rows = n.
Proof.
  destruct data as [| b | x | s | items | members]; simpl; try discriminate;
    intros Hi Hl; injection Hi as <-; injection Hl as <-.
  - rewrite length_map. induction s as [| c s IHs]; simpl; congruence.
  - reflexivity.
  - apply length_map.
Qed.

(** What a scan returns and leaves in the collection: the records of the
    undervalued contracts, at most one for each row of the answer. *)
Lemma scan_options_spec (underlying_ticker : string) (r0 sigma_default : R)
    (test_date : string) (db : collection) out db' :
  scan_options float_of_string repr requests_get utcnow underlying_ticker
    r0 sigma_default test_date db = (out, db') ->
  exists new,
    db' = db ++ new
    /\ Forall (flagged float_of_string repr underlying_ticker r0 sigma_default
              test_date) new
    /\ (forall results, out = Ok results -> results = new)
    /\ (forall data n,
        fetch_dolthub_options requests_get underlying_ticker test_date
          default_limit = Ok data ->
        py_len data = Ok n -> (List.length new <= n)%nat).
Proof.
  unfold scan_options. intro Hscan.
  assert (Hnone : forall o : result (list ValuationResult),
             (forall results, o = Ok results -> results = []) ->
             (o, db) = (out, db') ->
             exists new,
               db' = db ++ new
               /\ Forall (flagged float_of_string repr underlying_ticker r0 sigma_default
              test_date)
                    new
               /\ (forall results, out = Ok results -> results = new)
               /\ (forall data n,
                   fetch_dolthub_options requests_get underlying_ticker
                     test_date default_limit = Ok data ->
                   py_len data = Ok n -> (List.length new <= n)%nat)).
  { intros o Ho Heq. injection Heq as <- <-. exists [].
    rewrite app_nil_r. split; [reflexivity |]. split; [constructor |].
    split; [exact Ho |]. intros; simpl; lia. }
  destruct (fetch_dolthub_options requests_get underlying_ticker test_date
              default_limit) as [data | e] eqn:Hfetch.
  2:{ refine (Hnone _ _ Hscan); intros; discriminate. }
  destruct (py_len data) as [n | e] eqn:Hlen.
  2:{ refine (Hnone _ _ Hscan); intros; discriminate. }
  destruct (truthy data) eqn:Htruthy; simpl in Hscan.
  2:{ refine (Hnone _ _ Hscan); intros; congruence. }
  destruct (py_iter data) as [rows | e] eqn:Hiter.
  2:{ refine (Hnone _ _ Hscan); intros; discriminate. }
  apply scan_loop_spec in Hscan.
  destruct Hscan as (new & Hdb & Hn & Hall & Hres).
  exists new. split; [exact Hdb |]. split; [exact Hall |].
  split; [exact Hres |].
  intros data' n' Hd Hl. injection Hd as <-.
  pose proof (py_iter_length data rows n' Hiter Hl). lia.
Qed.

(** A record of the scan carries the spot of the scan, the pricing inputs
    of its contract, and prices computed from them. *)
Lemma flagged_fields (underlying_ticker : string) (r0 sigma_default : R)
    (test_date : string) (res : ValuationResult) :
  flagged float_of_string repr underlying_ticker r0 sigma_default test_date
    res ->
  S res = spot /\ r res = r0
  /\ UnderlyingTicker res = underlying_ticker
  /\ MarketPrice res < BlackScholesPrice res
  /\ Undervaluation res = BlackScholesPrice res - MarketPrice res
  /\ (exists is_call : bool,
        Type_ res = (if is_call then "Call" else "Put")%string
        /\ (if is_call
            then black_scholes_call spot (K res) (sigma res) r0 (t res)
            else black_scholes_put spot (K res) (sigma res) r0 (t res))
           = Ok (BlackScholesPrice res)).
Proof.
  intros (option & now & Hc).
  apply classify_some in Hc. destruct Hc as (v & Hev & Hdec).
  apply decide_some in Hdec.
  destruct Hdec as (Hlt & _ & Htk & _ & Hty & HS & HK & Hsig & Hr & Ht & Hm
                    & Hbs & Hu).
  apply evaluate_ok in Hev.
  destruct Hev as (cp & ex & st & _ & _ & _ & _ & _ & _ & _ & _ & Hprice).
  rewrite HS, Hr, Htk, Hm, Hbs, Hu, HK, Hsig, Ht.
  repeat (split; [assumption || reflexivity |]).
  exists (v_is_call v). split; [exact Hty | exact Hprice].
Qed.

(** C2.  For a contract the classifier has evaluated, a record is produced
    if and only if the market price, the midpoint of bid and ask, is
    strictly below the theoretical price; at equality and above there is
    none; and a produced record carries the two prices and an
    [Undervaluation] equal to their difference, which is strictly
    positive. *)
Theorem classify_decision (underlying_ticker : string)
    (S0 r0 sigma_default : R) (test_date now : string) (option : json)
    (v : valuation) :
  evaluate float_of_string repr underlying_ticker S0 r0 sigma_default
    test_date option = Ok v ->
  exists outcome,
    classify float_of_string repr underlying_ticker S0 r0 sigma_default
      test_date now option = Ok outcome
    /\ market_price_of float_of_string option = Ok (v_market_price v)
    /\ (if v_is_call v
        then black_scholes_call S0 (v_K v) (v_sigma v) r0 (v_t v)
        else black_scholes_put S0 (v_K v) (v_sigma v) r0 (v_t v))
       = Ok (v_bs_price v)
    /\ ((exists res, outcome = Some res)
        <-> v_market_price v < v_bs_price v)
    /\ (v_bs_price v <= v_market_price v -> outcome = None)
    /\ (forall res, outcome = Some res ->
        MarketPrice res = v_market_price v
        /\ BlackScholesPrice res = v_bs_price v
        /\ Undervaluation res = BlackScholesPrice res - MarketPrice res
        /\ 0 < Undervaluation res).
Proof using float_of_string repr.
  intro Hev.
  exists (decide underlying_ticker S0 r0 now v).
  split; [unfold classify; rewrite Hev; reflexivity |].
  destruct (evaluate_ok _ _ _ _ _ _ _ Hev)
    as (cp & ex & st & _ & _ & _ & _ & _ & Hm & _ & _ & Hprice).
  split; [exact Hm |]. split; [exact Hprice |].
  split; [| split].
  - split.
    + intros [res Hres]. apply decide_some in Hres.
      destruct Hres as [Hlt _]. exact Hlt.
    + intro Hlt.
      destruct (decide_flag underlying_ticker S0 r0 now v Hlt) as (res & Hres & _).
      exists res. exact Hres.
  - apply decide_pass.
  - intros res Hres. apply decide_some in Hres.
    destruct Hres as (Hlt & _ & _ & _ & _ & _ & _ & _ & _ & _ & Hmp & Hbs & Hu).
    rewrite Hmp, Hbs, Hu. repeat split; lra.
Qed.

Lemma sigma_of_cases (sigma_default : R) (option vol : json) :
  getitem option "vol" = Ok vol ->
  sigma_of float_of_string sigma_default option
  = if truthy vol then py_float float_of_string vol else Ok sigma_default.
Proof.
  intro Hvol. unfold sigma_of. rewrite Hvol. simpl.
  destruct (truthy vol); reflexivity.
Qed.

(** For a contract the classifier has evaluated, the volatility used for
    pricing is the [float] of the contract's ["vol"] field when that field
    is truthy and the supplied default otherwise, and the market price
    compared against is [(bid + ask) / 2]. *)
Lemma evaluate_volatility (underlying_ticker : string)
    (S0 r0 sigma_default : R) (test_date : string) (option : json)
    (v : valuation) :
  evaluate float_of_string repr underlying_ticker S0 r0 sigma_default
    test_date option = Ok v ->
  exists (vol bid_v ask_v : json) (bid ask : R),
    getitem option "vol" = Ok vol
    /\ getitem option "bid" = Ok bid_v
    /\ getitem option "ask" = Ok ask_v
    /\ py_float float_of_string bid_v = Ok bid
    /\ py_float float_of_string ask_v = Ok ask
    /\ v_market_price v = (bid + ask) / 2
    /\ (truthy vol = true -> py_float float_of_string vol = Ok (v_sigma v))
    /\ (truthy vol = false -> v_sigma v = sigma_default)
    /\ (if v_is_call v
        then black_scholes_call S0 (v_K v) (v_sigma v) r0 (v_t v)
        else black_scholes_put S0 (v_K v) (v_sigma v) r0 (v_t v))
       = Ok (v_bs_price v).
Proof.
  intro Hev.
  destruct (evaluate_ok _ _ _ _ _ _ _ Hev)
    as (cp & ex & st & _ & _ & _ & _ & _ & Hm & Hsig & _ & Hprice).
  unfold market_price_of in Hm.
  bind_inv Hm. rename a into bid_v, E into Ebid.
  bind_inv Hm. rename a into bid, E into Ebidf.
  bind_inv Hm. rename a into ask_v, E into Eask.
  bind_inv Hm. rename a into ask, E into Easkf.
  injection Hm as Hm.
  destruct (getitem option "vol") as [vol | e] eqn:Hvol.
  2:{ unfold sigma_of in Hsig. rewrite Hvol in Hsig. discriminate. }
  rewrite (sigma_of_cases sigma_default option vol Hvol) in Hsig.
  exists vol, bid_v, ask_v, bid, ask.
  repeat (split; [assumption || reflexivity || (symmetry; assumption) |]).
  split; [| split; [| exact Hprice]].
  - intro Ht. rewrite Ht in Hsig. exact Hsig.
  - intro Hf. rewrite Hf in Hsig. congruence.
Qed.

(** C7, amended.  For a contract whose row has the ["vol"] field, the
    volatility is the [float] of that field when its value is truthy (not
    [None], not empty, not a zero number) and the supplied default
    otherwise.  A row without the field gets no default: the lookup raises
    [KeyError] and the contract is not priced.  For every contract that is
    priced, the volatility used is the one so derived and the market price
    compared against is [(bid + ask) / 2]. *)
Theorem volatility_and_market_price (underlying_ticker : string)
    (S0 r0 sigma_default : R) (test_date : string) (option : json) :
  (forall vol,
      getitem option "vol" = Ok vol ->
      sigma_of float_of_string sigma_default option
      = if truthy vol then py_float float_of_string vol
        else Ok sigma_default)
  /\ (forall members,
      option = JObj members -> lookup "vol" members = None ->
      sigma_of float_of_string sigma_default option = Raise KeyError
      /\ forall v,
           evaluate float_of_string repr underlying_ticker S0 r0
             sigma_default test_date option <> Ok v)
  /\ (forall v,
      evaluate float_of_string repr underlying_ticker S0 r0 sigma_default
        test_date option = Ok v ->
      exists (vol bid_v ask_v : json) (bid ask : R),
        getitem option "vol" = Ok vol
        /\ getitem option "bid" = Ok bid_v
        /\ getitem option "ask" = Ok ask_v
        /\ py_float float_of_string bid_v = Ok bid
        /\ py_float float_of_string ask_v = Ok ask
        /\ v_market_price v = (bid + ask) / 2
        /\ (truthy vol = true ->
            py_float float_of_string vol = Ok (v_sigma v))
        /\ (truthy vol = false -> v_sigma v = sigma_default)
        /\ (if v_is_call v
            then black_scholes_call S0 (v_K v) (v_sigma v) r0 (v_t v)
            else black_scholes_put S0 (v_K v) (v_sigma v) r0 (v_t v))
           = Ok (v_bs_price v)).
Proof using float_of_string repr.
  split; [| split].
  - intros vol Hvol. apply sigma_of_cases. exact Hvol.
  - intros members -> Hmissing.
    assert (Hget : getitem (JObj members) "vol" = Raise KeyError).
    { unfold getitem. rewrite Hmissing. reflexivity. }
    split.
    + unfold sigma_of. rewrite Hget. reflexivity.
    + intros v Hev.
      destruct (evaluate_volatility _ _ _ _ _ _ _ Hev)
        as (vol & _ & _ & _ & _ & Hvol & _).
      rewrite Hget in Hvol. discriminate.
  - intros v Hev. exact (evaluate_volatility _ _ _ _ _ _ _ Hev).
Qed.

(** C9.  When the data source answers with an empty chain, the scan
    returns the empty list, raises nothing, and leaves the collection as it
    found it. *)
Theorem scan_empty_chain (underlying_ticker : string) (r0 sigma_default : R)
    (test_date : string) (db : collection) :
  fetch_dolthub_options requests_get underlying_ticker test_date
    default_limit = Ok (JArr []) ->
  scan_options float_of_string repr requests_get utcnow underlying_ticker
    r0 sigma_default test_date db = (Ok [], db).
Proof.
  intro Hfetch. unfold scan_options. rewrite Hfetch. reflexivity.
Qed.

(** The scan consults the data source only through the query it builds
    with the default limit. *)
Lemma scan_single_query (other_get : string -> result response)
    (underlying_ticker : string) (r0 sigma_default : R) (test_date : string)
    (db : collection) :
  other_get (query_url underlying_ticker test_date default_limit)
  = requests_get (query_url underlying_ticker test_date default_limit) ->
  scan_options float_of_string repr other_get utcnow underlying_ticker
    r0 sigma_default test_date db
  = scan_options float_of_string repr requests_get utcnow underlying_ticker
      r0 sigma_default test_date db.
Proof.
  intro Hsame. unfold scan_options, fetch_dolthub_options.
  rewrite Hsame. reflexivity.
Qed.



(** C5, amended.  The scan fails as a whole, inserting nothing, when the
    request raises, when the status is not 200, when the body is not JSON
    and when the decoded body is not a dict.  A dict that does not report a
    successful query (a status other than ["Success"], or no ["rows"]) is
    not an error: the scan returns the empty list, as for an empty
    chain. *)
Theorem scan_source_failure (underlying_ticker : string)
    (r0 sigma_default : R) (test_date : string) (db : collection) :
  let answer :=
    requests_get (query_url underlying_ticker test_date default_limit) in
  let scan :=
    scan_options float_of_string repr requests_get utcnow underlying_ticker
      r0 sigma_default test_date db in
  (forall e, answer = Raise e -> scan = (Raise e, db))
  /\ (forall resp, answer = Ok resp -> status_code resp <> 200%Z ->
      scan = (Raise (Exception ("DoltHub API error: " ++ text resp)), db))
  /\ (forall resp e, answer = Ok resp -> status_code resp = 200%Z ->
      json_body resp = Raise e -> scan = (Raise e, db))
  /\ (forall resp data, answer = Ok resp -> status_code resp = 200%Z ->
      json_body resp = Ok data -> is_dict data = false ->
      scan = (Raise AttributeError, db))
  /\ (forall resp data, answer = Ok resp -> status_code resp = 200%Z ->
      json_body resp = Ok data -> is_dict data = true ->
      success_payload data = false -> scan = (Ok [], db)).
Proof.
  intros answer scan. subst answer scan.
  unfold scan_options, fetch_dolthub_options.
  repeat split.
  - intros e ->. reflexivity.
  - intros resp -> Hstatus. simpl.
    destruct (Z.eqb_spec (status_code resp) 200); [contradiction | reflexivity].
  - intros resp e -> Hstatus Hbody. simpl.
    rewrite Hstatus, Hbody. reflexivity.
  - intros resp data -> Hstatus Hbody Hdict. simpl.
    rewrite Hstatus, Hbody. simpl.
    destruct data; try discriminate; reflexivity.
  - intros resp data -> Hstatus Hbody Hdict Hpayload. simpl.
    rewrite Hstatus, Hbody. simpl.
    destruct data as [| | | | | members]; try discriminate.
    unfold success_payload, has_key in Hpayload.
    unfold dict_get, has_key, getitem.
    destruct (lookup "query_execution_status" members) as [status |];
      unfold bind.
    + rewrite Hpayload. reflexivity.
    + reflexivity.
Qed.

(** C6, amended.  The spot price is not an input of the scan: it is the
    constant 175.84 fixed inside it.  Every record a scan returns or
    inserts, whatever the ticker, the date and the other arguments, has
    [S = 175.84] and a theoretical price computed at that spot. *)
Theorem scan_spot_fixed (underlying_ticker : string) (r0 sigma_default : R)
    (test_date : string) (db : collection) out db' :
  scan_options float_of_string repr requests_get utcnow underlying_ticker
    r0 sigma_default test_date db = (out, db') ->
  exists new,
    db' = db ++ new
    /\ (forall results, out = Ok results -> results = new)
    /\ Forall (fun res =>
         S res = 175.84
         /\ exists is_call : bool,
              Type_ res = (if is_call then "Call" else "Put")%string
              /\ (if is_call
                  then black_scholes_call 175.84 (K res) (sigma res) r0 (t res)
                  else black_scholes_put 175.84 (K res) (sigma res) r0 (t res))
                 = Ok (BlackScholesPrice res)) new.
Proof.
  intro Hscan.
  destruct (scan_options_spec _ _ _ _ _ _ _ Hscan)
    as (new & Hdb & Hall & Hres & _).
  exists new. split; [exact Hdb |]. split; [exact Hres |].
  revert Hall. apply Forall_impl. intros res Hflag.
  apply flagged_fields in Hflag.
  destruct Hflag as (HS & _ & _ & _ & _ & Hprice).
  split; [exact HS | exact Hprice].
Qed.

End ScanProperties.

(** ** The sample scans *)

(** An at-the-money call is worth more than nothing when the rate does not
    exceed half the variance. *)
Lemma call_at_the_money_positive (S0 sg rr tt : R) :
  0 < S0 -> 0 < sg -> 0 < rr -> 0 < tt -> rr <= sg * sg / 2 ->
  0 < BlackScholes.call norm_cdf S0 S0 sg rr tt.
Proof.
  intros HS Hsg Hrr Htt Hvar.
  unfold BlackScholes.call, BlackScholes.d2, BlackScholes.d1, norm_cdf.
  replace (S0 / S0) with 1 by (field; lra).
  rewrite ln_1.
  assert (Hq : 0 < sqrt tt) by (apply sqrt_lt_R0; exact Htt).
  assert (Hqq : sqrt tt * sqrt tt = tt) by (apply sqrt_sqrt; lra).
  set (q := sqrt tt) in *.
  set (d1 := (0 + (rr + sg * sg / 2) * tt) / (sg * q)).
  assert (Hden : 0 < sg * q) by nra.
  assert (Hd1 : 0 <= d1).
  { unfold d1. apply Rmult_le_pos; [nra |].
    left. apply Rinv_0_lt_compat. exact Hden. }
  assert (Hd2 : d1 - sg * q <= 0).
  { assert (d1 <= sg * q); [| lra].
    unfold d1. apply (Rmult_le_reg_r (sg * q)); [exact Hden |].
    unfold Rdiv. rewrite Rmult_assoc, Rinv_l by lra. nra. }
  pose proof (Normal.cdf_ge_half d1 Hd1) as HP1.
  pose proof (Normal.cdf_le_half (d1 - sg * q) Hd2) as HP2.
  assert (He1 : exp (- (rr * tt)) < 1).
  { rewrite <- exp_0. apply exp_increasing. nra. }
  pose proof (exp_pos (- (rr * tt))) as He0.
  set (e := exp (- (rr * tt))) in *.
  set (P1 := Normal.cdf d1) in *.
  set (P2 := Normal.cdf (d1 - sg * q)) in *.
  assert (S0 * e * P2 <= S0 * e * (1 / 2)).
  { apply Rmult_le_compat_l; [nra | exact HP2]. }
  nra.
Qed.

Module SampleFacts.

Import Sample.

Lemma month_to_expiry :
  time_to_expiration "2023-11-17" "2023-10-18" = Ok (30 / 365).
Proof.
  assert (E : time_to_expiration "2023-11-17" "2023-10-18"
              = Ok (py_max (IZR 30 / 365.0) 0.0001)) by reflexivity.
  rewrite E, py_max_keep by lra. f_equal. lra.
Qed.

Lemma at_the_money_evaluate (underlying_ticker : string) :
  evaluate float_of_decimal repr underlying_ticker spot 0.05 0.3
    "2023-10-18" at_the_money_call
  = Ok (at_the_money_valuation underlying_ticker).
Proof.
  assert (E : evaluate float_of_decimal repr underlying_ticker spot 0.05 0.3
                "2023-10-18" at_the_money_call
              = (t <- time_to_expiration "2023-11-17" "2023-10-18" ;;
                 bs_price <- black_scholes_call spot (IZR 17584 / IZR 100)
                               (IZR 5000 / IZR 10000) 0.05 t ;;
                 Ok (mkValuation true
                       (underlying_ticker ++ "20231117C175.84")%string
                       (IZR 17584 / IZR 100)
                       ((IZR 0 / IZR 100 + IZR 0 / IZR 100) / 2)
                       (IZR 5000 / IZR 10000) t bs_price))) by reflexivity.
  rewrite E, month_to_expiry. unfold bind at 1.
  replace (IZR 17584 / IZR 100) with 175.84 by lra.
  replace (IZR 5000 / IZR 10000) with 0.5 by lra.
  replace ((IZR 0 / IZR 100 + IZR 0 / IZR 100) / 2) with 0 by lra.
  unfold spot. rewrite black_scholes_call_eq by lra.
  reflexivity.
Qed.

Lemma at_the_money_undervalued :
  0 < BlackScholes.call norm_cdf 175.84 175.84 0.5 0.05 (30 / 365).
Proof. apply call_at_the_money_positive; lra. Qed.

Lemma at_the_money_classify (underlying_ticker : string) :
  classify float_of_decimal repr underlying_ticker spot 0.05 0.3
    "2023-10-18" (clock 0) at_the_money_call
  = Ok (Some (at_the_money_record underlying_ticker)).
Proof.
  unfold classify. rewrite at_the_money_evaluate. unfold bind, decide.
  pose proof at_the_money_undervalued as Hpos.
  destruct (Rlt_dec (v_market_price (at_the_money_valuation underlying_ticker))
              (v_bs_price (at_the_money_valuation underlying_ticker)))
    as [_ | Hn]; [reflexivity |].
  exfalso. apply Hn. exact Hpos.
Qed.

Lemma fetch_chain (rows : list json) (ticker date : string) (limit : Z) :
  fetch_dolthub_options (always (Ok (chain_response rows))) ticker date limit
  = Ok (JArr rows).
Proof. reflexivity. Qed.

(** The scan of a chain that holds the sample call alone. *)
Lemma at_the_money_scan (underlying_ticker : string) :
  scan (Ok (chain_response [at_the_money_call])) underlying_ticker 0.05 0.3
    "2023-10-18" []
  = (Ok [at_the_money_record underlying_ticker],
     [at_the_money_record underlying_ticker]).
Proof.
  unfold scan, scan_options. rewrite fetch_chain.
  cbn [py_len py_iter truthy negb scan_loop List.length].
  change (clock (@List.length ValuationResult [])) with (clock 0).
  rewrite at_the_money_classify. reflexivity.
Qed.

Lemma put_without_vol_evaluate (underlying_ticker : string) :
  evaluate float_of_decimal repr underlying_ticker spot 0.05 0.3
    "2023-10-18" put_without_vol
  = Ok (put_without_vol_valuation underlying_ticker).
Proof.
  assert (E : evaluate float_of_decimal repr underlying_ticker spot 0.05 0.3
                "2023-10-18" put_without_vol
              = (t <- time_to_expiration "2023-11-17" "2023-10-18" ;;
                 bs_price <- black_scholes_put spot (IZR 17000 / IZR 100)
                               0.3 0.05 t ;;
                 Ok (mkValuation false
                       (underlying_ticker ++ "20231117P170.00")%string
                       (IZR 17000 / IZR 100)
                       ((IZR 210 / IZR 100 + IZR 220 / IZR 100) / 2)
                       0.3 t bs_price))) by reflexivity.
  rewrite E, month_to_expiry. unfold bind at 1.
  replace (IZR 17000 / IZR 100) with 170 by lra.
  replace (IZR 210 / IZR 100) with 2.10 by lra.
  replace (IZR 220 / IZR 100) with 2.20 by lra.
  unfold spot. rewrite black_scholes_put_eq by lra.
  reflexivity.
Qed.

End SampleFacts.

(** ** The properties at the sample *)

(** Every record a scan returns is an undervalued contract. *)
Lemma scan_results_undervalued (float_of_string : string -> option R)
    (repr : json -> string) (requests_get : string -> result response)
    (utcnow : nat -> string) (underlying_ticker : string)
    (r0 sigma_default : R) (test_date : string) (db : collection)
    (results : list ValuationResult) (db' : collection) :
  scan_options float_of_string repr requests_get utcnow underlying_ticker
    r0 sigma_default test_date db = (Ok results, db') ->
  Forall (fun res =>
            MarketPrice res < BlackScholesPrice res
            /\ Undervaluation res = BlackScholesPrice res - MarketPrice res
            /\ 0 < Undervaluation res) results.
Proof.
  intro Hscan.
  destruct (scan_options_spec _ _ _ _ _ _ _ _ _ _ _ Hscan)
    as (new & _ & Hall & Hres & _).
  rewrite (Hres results eq_refl).
  revert Hall. apply Forall_impl. intros res Hflag.
  apply flagged_fields in Hflag.
  destruct Hflag as (_ & _ & _ & Hlt & Hu & _).
  rewrite Hu. repeat split; lra.
Qed.

(** A contract quoted at bid 1.0 and ask 3.0 whose theoretical price is 1.5
    is not undervalued. *)
Example market_above_theoretical (underlying_ticker : string) (S0 r0 : R)
    (now : string) (v : valuation) :
  v_market_price v = (1.0 + 3.0) / 2 -> v_bs_price v = 1.5 ->
  decide underlying_ticker S0 r0 now v = None.
Proof. intros Hm Hb. apply decide_pass. lra. Qed.

Lemma classify_decision_witness :
  evaluate Sample.float_of_decimal Sample.repr "AAPL" spot 0.05 0.3
    "2023-10-18" Sample.at_the_money_call
  = Ok (Sample.at_the_money_valuation "AAPL")
  /\ exists outcome,
       classify Sample.float_of_decimal Sample.repr "AAPL" spot 0.05 0.3
         "2023-10-18" (Sample.clock 0) Sample.at_the_money_call = Ok outcome
       /\ ((exists res, outcome = Some res)
           <-> 0 < BlackScholes.call norm_cdf 175.84 175.84 0.5 0.05 (30 / 365)).
Proof.
  split; [apply SampleFacts.at_the_money_evaluate |].
  destruct (classify_decision Sample.float_of_decimal Sample.repr "AAPL"%string
              spot 0.05 0.3 "2023-10-18"%string (Sample.clock 0)
              Sample.at_the_money_call
              (Sample.at_the_money_valuation "AAPL"%string)
              (SampleFacts.at_the_money_evaluate "AAPL"%string))
    as (outcome & Hc & _ & _ & Hiff & _).
  exists outcome. split; [exact Hc | exact Hiff].
Defined.

(** The claim C7 fails for a row that has no ["vol"] member: no default
    is used, the lookup raises [KeyError] and the scan raises with it. *)
Lemma missing_vol_is_not_defaulted :
  sigma_of Sample.float_of_decimal 0.3 Sample.put_missing_vol = Raise KeyError
  /\ evaluate Sample.float_of_decimal Sample.repr "AAPL" spot 0.05 0.3
       "2023-10-18" Sample.put_missing_vol
     = Raise KeyError
  /\ Sample.scan (Ok (Sample.chain_response [Sample.put_missing_vol])) "AAPL"
       0.05 0.3 "2023-10-18" []
     = (Raise KeyError, []).
Proof.
  split; [reflexivity |].
  assert (Hev : evaluate Sample.float_of_decimal Sample.repr "AAPL" spot 0.05
                  0.3 "2023-10-18" Sample.put_missing_vol
                = Raise KeyError) by reflexivity.
  split; [exact Hev |].
  unfold Sample.scan, scan_options. rewrite SampleFacts.fetch_chain.
  cbn [py_len py_iter truthy negb scan_loop List.length].
  unfold classify. rewrite Hev. reflexivity.
Qed.

Lemma volatility_and_market_price_witness :
  sigma_of Sample.float_of_decimal 0.3 Sample.put_without_vol = Ok 0.3
  /\ sigma_of Sample.float_of_decimal 0.3 Sample.at_the_money_call
     = py_float Sample.float_of_decimal (JStr "0.5000")
  /\ v_sigma (Sample.put_without_vol_valuation "AAPL") = 0.3.
Proof.
  destruct (volatility_and_market_price Sample.float_of_decimal Sample.repr
              "AAPL"%string spot 0.05 0.3 "2023-10-18"%string
              Sample.put_without_vol) as (Hpresent & _ & Hpriced).
  destruct (volatility_and_market_price Sample.float_of_decimal Sample.repr
              "AAPL"%string spot 0.05 0.3 "2023-10-18"%string
              Sample.at_the_money_call) as (Hcall & _ & _).
  split; [exact (Hpresent JNull eq_refl) |].
  split; [exact (Hcall (JStr "0.5000") eq_refl) |].
  destruct (Hpriced (Sample.put_without_vol_valuation "AAPL"%string)
              (SampleFacts.put_without_vol_evaluate "AAPL"%string))
    as (vol & bid_v & ask_v & bid & ask & Hvol & _ & _ & _ & _ & _ & _
        & Hdefault & _).
  apply Hdefault. injection Hvol as <-. reflexivity.
Defined.

Lemma scan_empty_chain_witness :
  Sample.scan (Ok (Sample.chain_response [])) "AAPL" 0.05 0.3 "2023-10-18" []
  = (Ok [], []).
Proof.
  apply (scan_empty_chain Sample.float_of_decimal Sample.repr
           (Sample.always (Ok (Sample.chain_response []))) Sample.clock
           "AAPL"%string 0.05 0.3 "2023-10-18"%string []).
  reflexivity.
Defined.


(** The claim C5 fails for a query the data source reports as failed in
    its payload: the data source has failed, and the scan returns the empty
    list as a success. *)
Lemma query_error_is_empty_success :
  source_failed (Ok Sample.query_error_response)
  /\ Sample.scan (Ok Sample.query_error_response) "AAPL" 0.05 0.3
       "2023-10-18" []
     = (Ok [], []).
Proof.
  split.
  - right. reflexivity.
  - reflexivity.
Qed.

Lemma scan_source_failure_witness :
  Sample.scan (Raise ConnectionError) "AAPL" 0.05 0.3 "2023-10-18" []
  = (Raise ConnectionError, []).
Proof.
  apply (scan_source_failure Sample.float_of_decimal Sample.repr
           (Sample.always (Raise ConnectionError)) Sample.clock
           "AAPL"%string 0.05 0.3 "2023-10-18"%string []).
  reflexivity.
Defined.

(** The claim C6 fails: no argument of the scan supplies the spot.  No
    scan, whatever it is given, prices a contract at a spot of 100, and the
    scan of another underlying than the one the constant was taken from
    prices at 175.84 all the same. *)
Lemma spot_not_supplied :
  (forall (float_of_string : string -> option R) (repr : json -> string)
          (requests_get : string -> result response) (utcnow : nat -> string)
          (underlying_ticker : string) (r0 sigma_default : R)
          (test_date : string) (db : collection)
          (results : list ValuationResult) (db' : collection),
      scan_options float_of_string repr requests_get utcnow underlying_ticker
        r0 sigma_default test_date db = (Ok results, db') ->
      forall res, In res results -> S res <> 100)
  /\ Sample.scan (Ok (Sample.chain_response [Sample.at_the_money_call]))
       "MSFT" 0.05 0.3 "2023-10-18" []
     = (Ok [Sample.at_the_money_record "MSFT"],
        [Sample.at_the_money_record "MSFT"])
  /\ S (Sample.at_the_money_record "MSFT") = 175.84.
Proof.
  split; [| split; [apply SampleFacts.at_the_money_scan | reflexivity]].
  intros fos rp get clk tk r0 sd date db results db' Hscan res Hin.
  destruct (scan_options_spec _ _ _ _ _ _ _ _ _ _ _ Hscan)
    as (new & _ & Hall & Hres & _).
  rewrite (Hres results eq_refl) in Hin.
  rewrite Forall_forall in Hall.
  destruct (flagged_fields _ _ _ _ _ _ _ (Hall res Hin)) as (HS & _).
  rewrite HS. unfold spot. lra.
Qed.

Lemma scan_spot_fixed_witness :
  Sample.scan (Ok (Sample.chain_response [Sample.at_the_money_call]))
    "MSFT" 0.05 0.3 "2023-10-18" []
  = (Ok [Sample.at_the_money_record "MSFT"],
     [Sample.at_the_money_record "MSFT"])
  /\ exists new,
       [Sample.at_the_money_record "MSFT"] = [] ++ new
       /\ Forall (fun res => S res = 175.84) new.
Proof.
  split; [apply SampleFacts.at_the_money_scan |].
  destruct (scan_spot_fixed Sample.float_of_decimal Sample.repr
              (Sample.always
                 (Ok (Sample.chain_response [Sample.at_the_money_call])))
              Sample.clock "MSFT"%string 0.05 0.3 "2023-10-18"%string []
              (Ok [Sample.at_the_money_record "MSFT"%string])
              [Sample.at_the_money_record "MSFT"%string]
              (SampleFacts.at_the_money_scan "MSFT"%string))
    as (new & Hdb & _ & Hall).
  exists new. split; [exact Hdb |].
  revert Hall. apply Forall_impl. intros res [HS _]. exact HS.
Defined.

(** * Further properties of the script *)

(** ** Dates and the time to expiration *)

Open Scope Z_scope.

Lemma re_month_day_any (pad_month pad_day : bool) (y m d : Z) :
  1 <= m <= 12 -> 1 <= d <= 31 ->
  exists others,
    seq (re_lit "-") (fun _ =>
    seq re_month (fun m' =>
    seq (re_lit "-") (fun _ =>
    seq re_day (fun d' => ret (mkdate y m' d')))))
      ("-"%char
       :: (if pad_month then two_digit_text m else unpadded m)
       ++ "-"%char :: (if pad_day then two_digit_text d else unpadded d))
    = (mkdate y m d, []) :: others.
Proof.
  intros Hm Hd.
  assert (Hd' : d = 1 \/ d = 2 \/ d = 3 \/ d = 4 \/ d = 5 \/ d = 6 \/ d = 7
                \/ d = 8 \/ d = 9 \/ d = 10 \/ d = 11 \/ d = 12 \/ d = 13
                \/ d = 14 \/ d = 15 \/ d = 16 \/ d = 17 \/ d = 18 \/ d = 19
                \/ d = 20 \/ d = 21 \/ d = 22 \/ d = 23 \/ d = 24 \/ d = 25
                \/ d = 26 \/ d = 27 \/ d = 28 \/ d = 29 \/ d = 30 \/ d = 31)
    by lia.
  destruct pad_month, pad_day; month_cases m;
    repeat (destruct Hd' as [Hd' | Hd']; [subst d; eexists; reflexivity |]);
    subst d; eexists; reflexivity.
Qed.

Lemma strptime_date_text (pad_month pad_day : bool) (d : date) :
  valid_date d = true -> strptime (date_text pad_month pad_day d) = Ok d.
Proof.
  intro Hv. pose proof (valid_date_bounds d Hv) as (Hy & Hm & Hd).
  pose proof (days_in_month_le (year d) (month d)) as Hle.
  destruct d as [y m dd]. simpl in *.
  unfold strptime, date_text. simpl year. simpl month. simpl day.
  rewrite list_ascii_of_string_of_list_ascii.
  unfold re_date. unfold seq at 1.
  rewrite re_year_digits by (Z.div_mod_to_equations; lia).
  replace (1000 * (y / 1000) + 100 * (y / 100 mod 10)
           + 10 * (y / 10 mod 10) + y mod 10) with y
    by (Z.div_mod_to_equations; lia).
  cbn [flat_map]. rewrite app_nil_r.
  destruct (re_month_day_any pad_month pad_day y m dd) as [others ->];
    [lia | lia |].
  rewrite Hv. reflexivity.
Qed.

Open Scope R_scope.

(** X1.  Two calendar dates written year-month-day, the month and the day
    with or without a leading zero, are both accepted, and the result
    depends on the dates alone: it is the day difference over 365.0,
    clamped from below at 0.0001. *)
Theorem time_to_expiration_reads_dates
    (pad_m1 pad_d1 pad_m2 pad_d2 : bool) (e d : date) :
  valid_date e = true -> valid_date d = true ->
  time_to_expiration (date_text pad_m1 pad_d1 e) (date_text pad_m2 pad_d2 d)
  = Ok (py_max (IZR (days_between e d) / 365.0) 0.0001).
Proof.
  intros He Hd. unfold time_to_expiration.
  rewrite (strptime_date_text pad_m1 pad_d1 e He),
    (strptime_date_text pad_m2 pad_d2 d Hd).
  reflexivity.
Qed.

Lemma time_to_expiration_reads_dates_witness :
  time_to_expiration "2024-3-01" "2023-12-5"
  = Ok (py_max (IZR (days_between (mkdate 2024 3 1) (mkdate 2023 12 5))
                / 365.0) 0.0001).
Proof.
  apply (time_to_expiration_reads_dates false true true false
           (mkdate 2024 3 1) (mkdate 2023 12 5)); reflexivity.
Defined.

(** How many characters the matchers of the date format take. *)

Lemma consumes_weaken {A : Type} (p : matcher A) (lo hi lo' hi' : nat) :
  (lo' <= lo)%nat -> (hi <= hi')%nat -> consumes p lo hi -> consumes p lo' hi'.
Proof.
  intros Hlo Hhi Hp s v rest Hin. specialize (Hp s v rest Hin). lia.
Qed.

Lemma consumes_alt {A : Type} (p q : matcher A) (lo hi : nat) :
  consumes p lo hi -> consumes q lo hi -> consumes (alt p q) lo hi.
Proof.
  intros Hp Hq s v rest Hin. unfold alt in Hin.
  apply in_app_or in Hin. destruct Hin; [eapply Hp | eapply Hq]; eassumption.
Qed.

Lemma consumes_seq {A B : Type} (p : matcher A) (k : A -> matcher B)
    (a b c d : nat) :
  consumes p a b -> (forall x, consumes (k x) c d) ->
  consumes (seq p k) (a + c) (b + d).
Proof.
  intros Hp Hk s v rest Hin. unfold seq in Hin.
  apply in_flat_map in Hin. destruct Hin as ([x mid] & Hx & Hv).
  specialize (Hp s x mid Hx). specialize (Hk x mid v rest Hv). lia.
Qed.

Lemma consumes_ret {A : Type} (a : A) : consumes (ret a) 0 0.
Proof.
  intros s v rest [Hin | []]. inversion Hin; subst. lia.
Qed.

Lemma consumes_re_year : consumes re_year 4 4.
Proof.
  intros s v rest Hin. unfold re_year in Hin.
  destruct s as [| a [| b [| c [| d s']]]]; try contradiction.
  destruct (is_digit a && is_digit b && is_digit c && is_digit d);
    [| contradiction].
  destruct Hin as [Hin | []]. inversion Hin; subst. simpl. lia.
Qed.

Lemma consumes_re_lit (x : ascii) : consumes (re_lit x) 1 1.
Proof.
  intros s v rest Hin. unfold re_lit in Hin.
  destruct s as [| c s']; [contradiction |].
  destruct (Ascii.eqb c x); [| contradiction].
  destruct Hin as [Hin | []]. inversion Hin; subst. simpl. lia.
Qed.

Lemma consumes_two_digits (a_lo a_hi b_lo b_hi : Z) :
  consumes (two_digits a_lo a_hi b_lo b_hi) 2 2.
Proof.
  intros s v rest Hin. unfold two_digits in Hin.
  destruct s as [| a [| b s']]; try contradiction.
  destruct (in_range a_lo a_hi a && in_range b_lo b_hi b); [| contradiction].
  destruct Hin as [Hin | []]. inversion Hin; subst. simpl. lia.
Qed.

Lemma consumes_one_digit (lo hi : Z) : consumes (one_digit lo hi) 1 1.
Proof.
  intros s v rest Hin. unfold one_digit in Hin.
  destruct s as [| a s']; [contradiction |].
  destruct (in_range lo hi a); [| contradiction].
  destruct Hin as [Hin | []]. inversion Hin; subst. simpl. lia.
Qed.

Lemma consumes_space_digit : consumes space_digit 2 2.
Proof.
  intros s v rest Hin. unfold space_digit in Hin.
  destruct s as [| a [| b s']]; try contradiction.
  destruct (Ascii.eqb a " " && in_range 1 9 b); [| contradiction].
  destruct Hin as [Hin | []]. inversion Hin; subst. simpl. lia.
Qed.

Lemma consumes_re_month : consumes re_month 1 2.
Proof.
  unfold re_month.
  repeat apply consumes_alt;
    solve [ eapply consumes_weaken; [| | apply consumes_two_digits]; lia
          | eapply consumes_weaken; [| | apply consumes_one_digit]; lia ].
Qed.

Lemma consumes_re_day : consumes re_day 1 2.
Proof.
  unfold re_day.
  repeat apply consumes_alt;
    solve [ eapply consumes_weaken; [| | apply consumes_two_digits]; lia
          | eapply consumes_weaken; [| | apply consumes_one_digit]; lia
          | eapply consumes_weaken; [| | apply consumes_space_digit]; lia ].
Qed.

Lemma consumes_re_date : consumes re_date 8 10.
Proof.
  unfold re_date.
  apply (consumes_seq _ _ 4 4 4 6); [apply consumes_re_year | intro y].
  apply (consumes_seq _ _ 1 1 3 5); [apply consumes_re_lit | intros _].
  apply (consumes_seq _ _ 1 2 2 3); [apply consumes_re_month | intro m].
  apply (consumes_seq _ _ 1 1 1 2); [apply consumes_re_lit | intros _].
  apply (consumes_seq _ _ 1 2 0 0); [apply consumes_re_day | intro d].
  apply consumes_ret.
Qed.

Lemma length_list_ascii (s : string) :
  List.length (list_ascii_of_string s) = String.length s.
Proof. induction s as [| c s IHs]; simpl; congruence. Qed.

Lemma strptime_length (text : string) (d : date) :
  strptime text = Ok d -> (8 <= String.length text <= 10)%nat.
Proof.
  unfold strptime. intro H.
  destruct (re_date (list_ascii_of_string text)) as [| [d' rest] l] eqn:Hre;
    [discriminate |].
  destruct rest; [| discriminate].
  pose proof (consumes_re_date (list_ascii_of_string text) d' []) as Hc.
  rewrite Hre in Hc. specialize (Hc (or_introl eq_refl)).
  rewrite length_list_ascii in Hc. simpl in Hc. lia.
Qed.

(** X2.  A text of ASCII characters that is shorter than 8 or longer than
    10 characters is never accepted as a date: a text that carries anything
    after the day, a time of day for instance, makes [time_to_expiration]
    raise [ValueError], whichever argument it is. *)
Theorem time_to_expiration_text_length (expiration reference : string) :
  (is_ascii expiration = true
   /\ ((String.length expiration < 8)%nat
       \/ (10 < String.length expiration)%nat))
  \/ (is_ascii reference = true
      /\ ((String.length reference < 8)%nat
          \/ (10 < String.length reference)%nat)) ->
  time_to_expiration expiration reference = Raise ValueError.
Proof.
  intro Hlen. unfold time_to_expiration.
  destruct (strptime expiration) as [e | ee] eqn:He.
  - destruct (strptime reference) as [d | ed] eqn:Hd.
    + apply strptime_length in He. apply strptime_length in Hd. lia.
    + rewrite (strptime_raises _ _ Hd). reflexivity.
  - rewrite (strptime_raises _ _ He). reflexivity.
Qed.

Lemma time_to_expiration_text_length_witness :
  time_to_expiration "2023-11-17T00:00:00" "2023-10-18" = Raise ValueError.
Proof.
  apply time_to_expiration_text_length. left.
  split; [reflexivity | right; simpl; lia].
Defined.

Lemma py_max_mono (x y : R) : x <= y -> py_max x 0.0001 <= py_max y 0.0001.
Proof.
  intro Hxy. unfold py_max.
  destruct (Rlt_dec x 0.0001), (Rlt_dec y 0.0001); lra.
Qed.

Lemma toordinal_mono (a b : date) :
  valid_date a = true -> valid_date b = true ->
  on_or_before a b -> (toordinal a <= toordinal b)%Z.
Proof.
  intros Ha Hb Hab.
  apply (on_or_before_ordinal a b Ha Hb) in Hab.
  unfold days_between in Hab. lia.
Qed.

(** X3.  The time to expiration never decreases when the expiration moves
    to a later date: for one reference date, an expiration on or before
    another gives a result no larger. *)
Theorem time_to_expiration_monotone (earlier later reference : string)
    (e1 e2 : date) (t1 t2 : R) :
  strptime earlier = Ok e1 -> strptime later = Ok e2 ->
  on_or_before e1 e2 ->
  time_to_expiration earlier reference = Ok t1 ->
  time_to_expiration later reference = Ok t2 ->
  t1 <= t2.
Proof.
  intros H1 H2 Hord Ht1 Ht2. unfold time_to_expiration in Ht1, Ht2.
  rewrite H1 in Ht1. rewrite H2 in Ht2. unfold bind in Ht1, Ht2.
  destruct (strptime reference) as [d | ed]; [| discriminate].
  injection Ht1 as <-. injection Ht2 as <-.
  apply py_max_mono.
  pose proof (toordinal_mono e1 e2 (strptime_valid _ _ H1)
                (strptime_valid _ _ H2) Hord) as Hle.
  unfold days_between.
  assert (Hz : (toordinal e1 - toordinal d <= toordinal e2 - toordinal d)%Z)
    by lia.
  apply IZR_le in Hz. lra.
Qed.

Lemma time_to_expiration_monotone_witness :
  time_to_expiration "2023-11-17" "2023-10-18" = Ok (30 / 365)
  /\ time_to_expiration "2023-12-15" "2023-10-18" = Ok (58 / 365)
  /\ 30 / 365 <= 58 / 365.
Proof.
  assert (E1 : time_to_expiration "2023-11-17" "2023-10-18" = Ok (30 / 365)).
  { assert (E : time_to_expiration "2023-11-17" "2023-10-18"
                = Ok (py_max (IZR 30 / 365.0) 0.0001)) by reflexivity.
    rewrite E, py_max_keep by lra. f_equal. lra. }
  assert (E2 : time_to_expiration "2023-12-15" "2023-10-18" = Ok (58 / 365)).
  { assert (E : time_to_expiration "2023-12-15" "2023-10-18"
                = Ok (py_max (IZR 58 / 365.0) 0.0001)) by reflexivity.
    rewrite E, py_max_keep by lra. f_equal. lra. }
  split; [exact E1 |]. split; [exact E2 |].
  apply (time_to_expiration_monotone "2023-11-17" "2023-12-15" "2023-10-18"
           (mkdate 2023 11 17) (mkdate 2023 12 15) (30 / 365) (58 / 365)).
  - reflexivity.
  - reflexivity.
  - unfold on_or_before. simpl. discriminate.
  - exact E1.
  - exact E2.
Defined.

(** X4.  A year is measured in days over 365.0 whatever its length: from
    the first of January of a year to the first of January of the next the
    time to expiration is exactly 1 for a common year and 366/365 for a
    leap year. *)
Theorem time_to_expiration_whole_year (y : Z) :
  (1 <= y <= 9998)%Z ->
  time_to_expiration (isoformat (mkdate (y + 1) 1 1)) (isoformat (mkdate y 1 1))
  = Ok (if is_leap y then 366 / 365 else 1).
Proof.
  intro Hy.
  assert (V1 : valid_date (mkdate (y + 1) 1 1) = true).
  { unfold valid_date. simpl. rewrite !andb_true_iff, !Z.leb_le. lia. }
  assert (V0 : valid_date (mkdate y 1 1) = true).
  { unfold valid_date. simpl. rewrite !andb_true_iff, !Z.leb_le. lia. }
  unfold time_to_expiration.
  rewrite (strptime_isoformat _ V1), (strptime_isoformat _ V0).
  unfold bind. f_equal.
  assert (Hdays : days_between (mkdate (y + 1) 1 1) (mkdate y 1 1)
                  = (365 + (if is_leap y then 1 else 0))%Z).
  { unfold days_between, toordinal. cbn [year month day].
    change (days_before_month (y + 1) 1) with 0%Z.
    change (days_before_month y 1) with 0%Z.
    rewrite days_before_year_succ. destruct (is_leap y); lia. }
  rewrite Hdays.
  destruct (is_leap y).
  - rewrite py_max_keep; [change (365 + 1)%Z with 366%Z; lra |].
    change (365 + 1)%Z with 366%Z. lra.
  - rewrite py_max_keep; [change (365 + 0)%Z with 365%Z; lra |].
    change (365 + 0)%Z with 365%Z. lra.
Qed.

Lemma time_to_expiration_whole_year_witness :
  time_to_expiration "2025-01-01" "2024-01-01" = Ok (366 / 365).
Proof.
  apply (time_to_expiration_whole_year 2024). lia.
Defined.

(** ** Pricing model *)

Lemma black_scholes_call_ok (S K sigma r t c : R) :
  black_scholes_call S K sigma r t = Ok c ->
  K <> 0 /\ c = BlackScholes.call norm_cdf S K sigma r t.
Proof.
  intro H. destruct (Req_dec K 0) as [-> | HK].
  - unfold black_scholes_call in H. rewrite py_div_zero in H. discriminate.
  - rewrite (black_scholes_call_eq S K sigma r t HK) in H.
    injection H as <-. split; [exact HK | reflexivity].
Qed.

Lemma black_scholes_put_ok (S K sigma r t p : R) :
  black_scholes_put S K sigma r t = Ok p ->
  K <> 0 /\ p = BlackScholes.put norm_cdf S K sigma r t.
Proof.
  intro H. destruct (Req_dec K 0) as [-> | HK].
  - unfold black_scholes_put in H. rewrite py_div_zero in H. discriminate.
  - rewrite (black_scholes_put_eq S K sigma r t HK) in H.
    injection H as <-. split; [exact HK | reflexivity].
Qed.

Lemma d1_scaling (k S K sigma r t : R) :
  k <> 0 -> K <> 0 ->
  BlackScholes.d1 (k * S) (k * K) sigma r t = BlackScholes.d1 S K sigma r t.
Proof.
  intros Hk HK. unfold BlackScholes.d1.
  replace (k * S / (k * K)) with (S / K) by (field; split; assumption).
  reflexivity.
Qed.

(** X5.  The prices are homogeneous in spot and strike: multiplying both
    by the same positive factor, a change of currency unit or a stock
    split, multiplies the call price and the put price by that factor. *)
Theorem black_scholes_scaling (k S K sigma r t c p : R) :
  0 < k ->
  black_scholes_call S K sigma r t = Ok c ->
  black_scholes_put S K sigma r t = Ok p ->
  black_scholes_call (k * S) (k * K) sigma r t = Ok (k * c)
  /\ black_scholes_put (k * S) (k * K) sigma r t = Ok (k * p).
Proof.
  intros Hk Hc Hp.
  apply black_scholes_call_ok in Hc. destruct Hc as [HK ->].
  apply black_scholes_put_ok in Hp. destruct Hp as [_ ->].
  assert (Hk0 : k <> 0) by lra.
  assert (HkK : k * K <> 0) by (apply Rmult_integral_contrapositive_currified; assumption).
  rewrite (black_scholes_call_eq _ _ sigma r t HkK),
    (black_scholes_put_eq _ _ sigma r t HkK).
  unfold BlackScholes.call, BlackScholes.put, BlackScholes.d2.
  rewrite (d1_scaling k S K sigma r t Hk0 HK).
  split; f_equal; ring.
Qed.

Lemma black_scholes_scaling_witness :
  black_scholes_call (100 * 175.84) (100 * 170) 0.25 0.05 0.0849
  = Ok (100 * BlackScholes.call norm_cdf 175.84 170 0.25 0.05 0.0849)
  /\ black_scholes_put (100 * 175.84) (100 * 170) 0.25 0.05 0.0849
     = Ok (100 * BlackScholes.put norm_cdf 175.84 170 0.25 0.05 0.0849).
Proof.
  apply (black_scholes_scaling 100 175.84 170 0.25 0.05 0.0849).
  - lra.
  - apply black_scholes_call_eq. lra.
  - apply black_scholes_put_eq. lra.
Defined.

(** X6.  At the money and at a zero rate the call and the put have the
    same price. *)
Theorem at_the_money_zero_rate (S sigma t : R) :
  S <> 0 ->
  exists price : R,
    black_scholes_call S S sigma 0 t = Ok price
    /\ black_scholes_put S S sigma 0 t = Ok price.
Proof.
  intro HS.
  exists (BlackScholes.call norm_cdf S S sigma 0 t).
  split; [apply black_scholes_call_eq; exact HS |].
  rewrite (black_scholes_put_eq S S sigma 0 t HS). f_equal.
  pose proof (parity_identity S S sigma 0 t) as Hpar.
  replace (- (0 * t)) with 0 in Hpar by ring.
  rewrite exp_0 in Hpar. lra.
Qed.

Lemma at_the_money_zero_rate_witness :
  exists price : R,
    black_scholes_call 175.84 175.84 0.3 0 (30 / 365) = Ok price
    /\ black_scholes_put 175.84 175.84 0.3 0 (30 / 365) = Ok price.
Proof.
  apply (at_the_money_zero_rate 175.84 0.3 (30 / 365)). lra.
Defined.

(** ** The evaluation of one contract *)

(** The exceptions that malformed data can cause. *)
Definition data_error (e : exn) : Prop :=
  e = KeyError \/ e = TypeError \/ e = AttributeError \/ e = ValueError.

Lemma bind_raise {A B : Type} (c : result A) (k : A -> result B) (e : exn) :
  bind c k = Raise e ->
  c = Raise e \/ exists a, c = Ok a /\ k a = Raise e.
Proof.
  destruct c as [a | e']; simpl; intro H.
  - right. exists a. split; [reflexivity | exact H].
  - left. injection H as ->. reflexivity.
Qed.

Lemma getitem_raise (obj : json) (key : string) (e : exn) :
  getitem obj key = Raise e -> data_error e.
Proof.
  unfold getitem, data_error.
  destruct obj as [| b | x | s | items | members];
    try (intro H; injection H as <-; tauto).
  destruct (lookup key members); [discriminate |].
  intro H; injection H as <-; tauto.
Qed.

Lemma eq_str_true (v : json) (text : string) :
  eq_str v text = true <-> v = JStr text.
Proof.
  destruct v as [| b | x | s | items | members]; simpl;
    try (split; [discriminate | intro H; discriminate]).
  rewrite String.eqb_eq. split; [intros -> | intro H; injection H as ->];
    reflexivity.
Qed.

Lemma time_to_expiration_lower (expiration reference : string) (v : R) :
  time_to_expiration expiration reference = Ok v -> 0.0001 <= v.
Proof.
  unfold time_to_expiration. intro H.
  bind_inv H. bind_inv H. injection H as <-.
  unfold py_max. destruct (Rlt_dec _ 0.0001); lra.
Qed.

Lemma time_to_expiration_raise (expiration reference : string) (e : exn) :
  time_to_expiration expiration reference = Raise e -> e = ValueError.
Proof.
  unfold time_to_expiration. intro H.
  apply bind_raise in H. destruct H as [H | (d1 & _ & H)];
    [exact (strptime_raises _ _ H) |].
  apply bind_raise in H. destruct H as [H | (d2 & _ & H)];
    [exact (strptime_raises _ _ H) | discriminate].
Qed.

Lemma black_scholes_call_raise (S K sigma r t : R) (e : exn) :
  black_scholes_call S K sigma r t = Raise e ->
  e = ZeroDivisionError /\ K = 0.
Proof.
  intro H. destruct (Req_dec K 0) as [-> | HK].
  - unfold black_scholes_call in H. rewrite py_div_zero in H.
    injection H as <-. split; reflexivity.
  - rewrite (black_scholes_call_eq S K sigma r t HK) in H. discriminate.
Qed.

Lemma black_scholes_put_raise (S K sigma r t : R) (e : exn) :
  black_scholes_put S K sigma r t = Raise e ->
  e = ZeroDivisionError /\ K = 0.
Proof.
  intro H. destruct (Req_dec K 0) as [-> | HK].
  - unfold black_scholes_put in H. rewrite py_div_zero in H.
    injection H as <-. split; reflexivity.
  - rewrite (black_scholes_put_eq S K sigma r t HK) in H. discriminate.
Qed.

Section ContractProperties.

Variable float_of_string : string -> option R.
Variable repr : json -> string.

Lemma py_float_raise (v : json) (e : exn) :
  py_float float_of_string v = Raise e -> data_error e.
Proof.
  unfold py_float, data_error.
  destruct v as [| b | x | s | items | members];
    try (intro H; injection H as <-; tauto); try discriminate.
  destruct (float_of_string s); [discriminate |].
  intro H; injection H as <-; tauto.
Qed.

Lemma remove_dashes_raise (v : json) (e : exn) :
  remove_dashes v = Raise e -> data_error e.
Proof.
  unfold remove_dashes, data_error.
  destruct v as [| b | x | s | items | members];
    try (intro H; injection H as <-; tauto); discriminate.
Qed.

Lemma market_price_of_raise (option : json) (e : exn) :
  market_price_of float_of_string option = Raise e -> data_error e.
Proof.
  unfold market_price_of. intro H.
  apply bind_raise in H. destruct H as [H | (a1 & _ & H)];
    [exact (getitem_raise _ _ _ H) |].
  apply bind_raise in H. destruct H as [H | (a2 & _ & H)];
    [exact (py_float_raise _ _ H) |].
  apply bind_raise in H. destruct H as [H | (a3 & _ & H)];
    [exact (getitem_raise _ _ _ H) |].
  apply bind_raise in H. destruct H as [H | (a4 & _ & H)];
    [exact (py_float_raise _ _ H) | discriminate].
Qed.

Lemma sigma_of_raise (sigma_default : R) (option : json) (e : exn) :
  sigma_of float_of_string sigma_default option = Raise e -> data_error e.
Proof.
  unfold sigma_of. intro H.
  apply bind_raise in H. destruct H as [H | (vol & _ & H)];
    [exact (getitem_raise _ _ _ H) |].
  destruct (truthy vol); [| discriminate].
  apply bind_raise in H. destruct H as [H | (vol' & _ & H)];
    [exact (getitem_raise _ _ _ H) | exact (py_float_raise _ _ H)].
Qed.

Definition fields : list string :=
  ["call_put"; "expiration"; "strike"; "bid"; "ask"; "vol"]%string.

Lemma market_price_of_fields (option : json) (m : R) :
  market_price_of float_of_string option = Ok m ->
  (exists x, getitem option "bid" = Ok x)
  /\ (exists x, getitem option "ask" = Ok x).
Proof.
  unfold market_price_of. intro Hm.
  bind_inv Hm. rename a into bid_v, E into Ebid.
  bind_inv Hm. rename a into bid, E into Ebidf.
  bind_inv Hm. rename a into ask_v, E into Eask.
  split; eauto.
Qed.

Lemma sigma_of_field (sigma_default : R) (option : json) (s : R) :
  sigma_of float_of_string sigma_default option = Ok s ->
  exists x, getitem option "vol" = Ok x.
Proof.
  unfold sigma_of. intro Hs. bind_inv Hs. eauto.
Qed.

(** Why [evaluate] raises: malformed data, or, with every field there, a
    strike that reads as 0. *)
Lemma evaluate_raise (underlying_ticker : string) (S0 r0 sigma_default : R)
    (test_date : string) (option : json) (e : exn) :
  evaluate float_of_string repr underlying_ticker S0 r0 sigma_default
    test_date option = Raise e ->
  data_error e
  \/ (e = ZeroDivisionError
      /\ (exists strike,
            getitem option "strike" = Ok strike
            /\ py_float float_of_string strike = Ok 0)
      /\ forall key, In key fields -> exists x, getitem option key = Ok x).
Proof.
  unfold evaluate. intro H.
  apply bind_raise in H. destruct H as [H | (call_put & Hcp & H)];
    [left; exact (getitem_raise _ _ _ H) |].
  apply bind_raise in H. destruct H as [H | (expiration & Hexp & H)];
    [left; exact (getitem_raise _ _ _ H) |].
  apply bind_raise in H. destruct H as [H | (digits & _ & H)];
    [left; exact (remove_dashes_raise _ _ H) |].
  apply bind_raise in H. destruct H as [H | (strike & Hstrike & H)];
    [left; exact (getitem_raise _ _ _ H) |].
  apply bind_raise in H. destruct H as [H | (K0 & HK & H)];
    [left; exact (py_float_raise _ _ H) |].
  apply bind_raise in H. destruct H as [H | (market & Hmarket & H)];
    [left; exact (market_price_of_raise _ _ H) |].
  apply bind_raise in H. destruct H as [H | (sigma0 & Hsigma & H)];
    [left; exact (sigma_of_raise _ _ _ H) |].
  apply bind_raise in H. destruct H as [H | (t0 & _ & H)].
  { left. rewrite (time_to_expiration_raise _ _ _ H).
    unfold data_error. tauto. }
  apply bind_raise in H. destruct H as [H | (bs & _ & H)]; [| discriminate].
  right.
  assert (Hzero : e = ZeroDivisionError /\ K0 = 0).
  { destruct (eq_str call_put "Call");
      [exact (black_scholes_call_raise _ _ _ _ _ _ H)
      | exact (black_scholes_put_raise _ _ _ _ _ _ H)]. }
  destruct Hzero as [-> ->]. split; [reflexivity |].
  split; [exists strike; split; assumption |].
  destruct (market_price_of_fields _ _ Hmarket) as [Hbid Hask].
  pose proof (sigma_of_field _ _ _ Hsigma) as Hvol.
  intros key Hkey. unfold fields in Hkey. simpl in Hkey.
  repeat (destruct Hkey as [<- | Hkey]; [eauto |]). contradiction.
Qed.

(** The six fields [evaluate] reads are all there when it returns. *)
Lemma evaluate_fields (underlying_ticker : string) (S0 r0 sigma_default : R)
    (test_date : string) (option : json) (v : valuation) (key : string) :
  evaluate float_of_string repr underlying_ticker S0 r0 sigma_default
    test_date option = Ok v ->
  In key fields -> exists x, getitem option key = Ok x.
Proof.
  intros Hev Hkey. unfold fields in Hkey.
  destruct (evaluate_ok _ _ _ _ _ _ _ _ _ Hev)
    as (cp & ex & st & Hcp & _ & Hex & Hst & _ & Hm & Hsig & _).
  unfold market_price_of in Hm.
  bind_inv Hm. rename a into bid_v, E into Ebid.
  bind_inv Hm. rename a into bid, E into Ebidf.
  bind_inv Hm. rename a into ask_v, E into Eask.
  unfold sigma_of in Hsig. bind_inv Hsig. rename a into vol, E into Evol.
  simpl in Hkey.
  repeat (destruct Hkey as [<- | Hkey]; [eauto |]). contradiction.
Qed.

(** The option symbol [evaluate] composes. *)
Lemma evaluate_ticker (underlying_ticker : string) (S0 r0 sigma_default : R)
    (test_date : string) (option : json) (v : valuation) :
  evaluate float_of_string repr underlying_ticker S0 r0 sigma_default
    test_date option = Ok v ->
  exists expiration digits strike,
    getitem option "expiration" = Ok expiration
    /\ remove_dashes expiration = Ok digits
    /\ getitem option "strike" = Ok strike
    /\ v_ticker v
       = (underlying_ticker ++ digits
          ++ (if v_is_call v then "C" else "P") ++ format_value repr strike)%string.
Proof.
  unfold evaluate. intro H.
  bind_inv H. rename a into call_put, E into Ecp.
  bind_inv H. rename a into expiration, E into Eexp.
  bind_inv H. rename a into digits, E into Edig.
  bind_inv H. rename a into strike, E into Estrike.
  bind_inv H. rename a into K0, E into EK.
  bind_inv H. rename a into market, E into Emarket.
  bind_inv H. rename a into sigma0, E into Esigma.
  bind_inv H. rename a into t0, E into Et.
  bind_inv H. rename a into bs, E into Ebs.
  injection H as <-. simpl.
  exists expiration, digits, strike. repeat split; assumption || reflexivity.
Qed.

(** X9.  Only the exact text ["Call"] makes a contract a call.  A record
    whose row says ["Call"] is labelled ["Call"] and priced by
    [black_scholes_call]; with any other value of ["call_put"] (another
    spelling, a number, null) the record is labelled ["Put"] and priced by
    [black_scholes_put]. *)
Theorem contract_kind (underlying_ticker : string) (S0 r0 sigma_default : R)
    (test_date now : string) (option : json) (res : ValuationResult) :
  classify float_of_string repr underlying_ticker S0 r0 sigma_default
    test_date now option = Ok (Some res) ->
  exists call_put,
    getitem option "call_put" = Ok call_put
    /\ (call_put = JStr "Call" ->
        Type_ res = "Call"%string
        /\ black_scholes_call S0 (K res) (sigma res) r0 (t res)
           = Ok (BlackScholesPrice res))
    /\ (call_put <> JStr "Call" ->
        Type_ res = "Put"%string
        /\ black_scholes_put S0 (K res) (sigma res) r0 (t res)
           = Ok (BlackScholesPrice res)).
Proof.
  intro Hc. apply classify_some in Hc. destruct Hc as (v & Hev & Hdec).
  apply decide_some in Hdec.
  destruct Hdec as (_ & _ & _ & _ & Hty & _ & HK & Hsig & _ & Ht & _ & Hbs & _).
  destruct (evaluate_ok _ _ _ _ _ _ _ _ _ Hev)
    as (cp & ex & st & Hcp & Hkind & _ & _ & _ & _ & _ & _ & Hprice).
  exists cp. split; [exact Hcp |].
  rewrite HK, Hsig, Ht, Hbs, Hty.
  split; intro Hcase.
  - apply eq_str_true in Hcase. rewrite <- Hkind in Hcase.
    rewrite Hcase in *. split; [reflexivity | exact Hprice].
  - assert (Hfalse : v_is_call v = false).
    { rewrite Hkind. destruct (eq_str cp "Call") eqn:He; [| reflexivity].
      apply eq_str_true in He. contradiction. }
    rewrite Hfalse in *. split; [reflexivity | exact Hprice].
Qed.

(** X10.  A row that lacks one of the six fields the loop reads
    ([call_put], [expiration], [strike], [bid], [ask], [vol]) is never
    evaluated and never yields a record: the lookup of the missing field
    raises [KeyError], so the loop body ends in an exception, also for a
    missing [vol], for which no default is substituted. *)
Theorem missing_field_raises (underlying_ticker : string)
    (S0 r0 sigma_default : R) (test_date : string)
    (members : list (string * json)) (key : string) :
  In key fields ->
  lookup key members = None ->
  getitem (JObj members) key = Raise KeyError
  /\ (forall v,
      evaluate float_of_string repr underlying_ticker S0 r0 sigma_default
        test_date (JObj members) <> Ok v)
  /\ (forall now outcome,
      classify float_of_string repr underlying_ticker S0 r0 sigma_default
        test_date now (JObj members) <> Ok outcome).
Proof.
  intros Hkey Hmissing.
  assert (Hget : getitem (JObj members) key = Raise KeyError).
  { unfold getitem. rewrite Hmissing. reflexivity. }
  assert (Hnever : forall v,
             evaluate float_of_string repr underlying_ticker S0 r0
               sigma_default test_date (JObj members) <> Ok v).
  { intros v Hev.
    destruct (evaluate_fields _ _ _ _ _ _ _ key Hev Hkey) as [x Hx].
    rewrite Hget in Hx. discriminate. }
  split; [exact Hget |]. split; [exact Hnever |].
  intros now outcome Hc. unfold classify in Hc. bind_inv Hc.
  exact (Hnever _ E).
Qed.

(** X11.  A strike that reads as 0 stops the evaluation: the division
    [S/K] raises, so [evaluate] never returns for such a row, and a
    [ZeroDivisionError] has no other cause than a zero strike. *)
Theorem zero_strike_raises (underlying_ticker : string)
    (S0 r0 sigma_default : R) (test_date : string) (option : json) :
  (forall strike,
      getitem option "strike" = Ok strike ->
      py_float float_of_string strike = Ok 0 ->
      exists e,
        evaluate float_of_string repr underlying_ticker S0 r0 sigma_default
          test_date option = Raise e)
  /\ (evaluate float_of_string repr underlying_ticker S0 r0 sigma_default
        test_date option = Raise ZeroDivisionError ->
      exists strike,
        getitem option "strike" = Ok strike
        /\ py_float float_of_string strike = Ok 0).
Proof.
  split.
  - intros strike Hst Hzero.
    destruct (evaluate float_of_string repr underlying_ticker S0 r0
                sigma_default test_date option) as [v | e] eqn:Hev;
      [| exists e; reflexivity].
    exfalso.
    destruct (evaluate_ok _ _ _ _ _ _ _ _ _ Hev)
      as (cp & ex & st & _ & _ & _ & Hst' & HK & _ & _ & _ & Hprice).
    rewrite Hst in Hst'. injection Hst' as <-.
    rewrite Hzero in HK. injection HK as HK.
    destruct (v_is_call v).
    + apply black_scholes_call_ok in Hprice. destruct Hprice as [Hn _].
      apply Hn. symmetry. exact HK.
    + apply black_scholes_put_ok in Hprice. destruct Hprice as [Hn _].
      apply Hn. symmetry. exact HK.
  - intro Hev.
    destruct (evaluate_raise _ _ _ _ _ _ _ Hev) as [Hd | (_ & Hst & _)];
      [| exact Hst].
    unfold data_error in Hd. destruct Hd as [H | [H | [H | H]]]; discriminate.
Qed.

(** X13.  Every record the loop builds has sound pricing inputs: a strike
    that is not 0 and a time to expiration of at least 0.0001; it echoes
    the ticker, the spot and the rate it was built with, and its [Type] is
    ["Call"] or ["Put"]. *)
Theorem record_invariants (underlying_ticker : string)
    (S0 r0 sigma_default : R) (test_date now : string) (option : json)
    (res : ValuationResult) :
  classify float_of_string repr underlying_ticker S0 r0 sigma_default
    test_date now option = Ok (Some res) ->
  K res <> 0
  /\ 0.0001 <= t res
  /\ UnderlyingTicker res = underlying_ticker
  /\ S res = S0 /\ r res = r0 /\ RecordId res = now
  /\ (Type_ res = "Call"%string \/ Type_ res = "Put"%string).
Proof.
  intro Hc. apply classify_some in Hc. destruct Hc as (v & Hev & Hdec).
  apply decide_some in Hdec.
  destruct Hdec as (_ & Hid & Htk & _ & Hty & HS & HK & Hsig & Hr & Ht & _).
  destruct (evaluate_ok _ _ _ _ _ _ _ _ _ Hev)
    as (cp & ex & st & _ & _ & _ & _ & _ & _ & _ & Htime & Hprice).
  rewrite HK, Ht, Htk, HS, Hr, Hid, Hty.
  split.
  { destruct (v_is_call v).
    - apply black_scholes_call_ok in Hprice. tauto.
    - apply black_scholes_put_ok in Hprice. tauto. }
  split; [exact (time_to_expiration_lower _ _ _ Htime) |].
  repeat (split; [reflexivity |]).
  destruct (v_is_call v); [left | right]; reflexivity.
Qed.

End ContractProperties.

(** The eight digits of a date, [YYYYMMDD]. *)
Definition compact (d : date) : string :=
  string_of_list_ascii
    (digit_char (year d / 1000) :: digit_char (year d / 100 mod 10)
     :: digit_char (year d / 10 mod 10) :: digit_char (year d mod 10)
     :: two_digit_text (month d) ++ two_digit_text (day d)).

Lemma digit_char_not_dash (n : Z) :
  (0 <= n <= 9)%Z -> Ascii.eqb (digit_char n) "-" = false.
Proof.
  intro Hn. destruct n as [| p | p]; [reflexivity | | lia].
  repeat (destruct p as [p | p |]; try lia); reflexivity.
Qed.

Lemma filter_digits (cs : list ascii) :
  Forall (fun c => Ascii.eqb c "-" = false) cs ->
  filter (fun c => negb (Ascii.eqb c "-")) cs = cs.
Proof.
  induction 1 as [| c cs Hc _ IH]; simpl; [reflexivity |].
  rewrite Hc. simpl. rewrite IH. reflexivity.
Qed.

Lemma remove_dashes_isoformat (d : date) :
  valid_date d = true ->
  remove_dashes (JStr (isoformat d)) = Ok (compact d).
Proof.
  intro Hv. pose proof (valid_date_bounds d Hv) as (Hy & Hm & Hd).
  pose proof (days_in_month_le (year d) (month d)) as Hle.
  destruct d as [y m dd]. cbn [year month day] in *.
  unfold remove_dashes, isoformat, compact. cbn [year month day].
  rewrite list_ascii_of_string_of_list_ascii. do 2 f_equal.
  set (ys := [digit_char (y / 1000); digit_char (y / 100 mod 10);
              digit_char (y / 10 mod 10); digit_char (y mod 10)]).
  change (filter (fun c => negb (Ascii.eqb c "-"))
            (ys ++ "-"%char :: two_digit_text m
                ++ "-"%char :: two_digit_text dd)
          = ys ++ two_digit_text m ++ two_digit_text dd).
  assert (Hys : Forall (fun c => Ascii.eqb c "-" = false) ys).
  { unfold ys. repeat constructor; apply digit_char_not_dash;
      Z.div_mod_to_equations; lia. }
  assert (Hms : Forall (fun c => Ascii.eqb c "-" = false) (two_digit_text m)).
  { unfold two_digit_text. repeat constructor; apply digit_char_not_dash;
      Z.div_mod_to_equations; lia. }
  assert (Hds : Forall (fun c => Ascii.eqb c "-" = false) (two_digit_text dd)).
  { unfold two_digit_text. repeat constructor; apply digit_char_not_dash;
      Z.div_mod_to_equations; lia. }
  rewrite filter_app, (filter_digits ys Hys). f_equal.
  change (filter (fun c => negb (Ascii.eqb c "-"))
            ("-"%char :: two_digit_text m ++ "-"%char :: two_digit_text dd))
    with (filter (fun c => negb (Ascii.eqb c "-"))
            (two_digit_text m ++ "-"%char :: two_digit_text dd)).
  rewrite filter_app, (filter_digits _ Hms). f_equal.
  change (filter (fun c => negb (Ascii.eqb c "-"))
            ("-"%char :: two_digit_text dd))
    with (filter (fun c => negb (Ascii.eqb c "-")) (two_digit_text dd)).
  apply filter_digits, Hds.
Qed.

(** X14.  The option symbol of a record is the underlying ticker, the
    eight digits of the expiration date, the letter [C] or [P], and the
    strike as the data source wrote it. *)
Theorem option_ticker_format (float_of_string : string -> option R)
    (repr : json -> string) (underlying_ticker : string)
    (S0 r0 sigma_default : R) (test_date now : string) (option : json)
    (res : ValuationResult) (d : date) (strike : string) :
  classify float_of_string repr underlying_ticker S0 r0 sigma_default
    test_date now option = Ok (Some res) ->
  getitem option "expiration" = Ok (JStr (isoformat d)) ->
  valid_date d = true ->
  getitem option "strike" = Ok (JStr strike) ->
  OptionTicker res
  = (underlying_ticker ++ compact d
     ++ (if String.eqb (Type_ res) "Call" then "C" else "P") ++ strike)%string.
Proof.
  intros Hc Hexp Hv Hstrike.
  apply classify_some in Hc. destruct Hc as (v & Hev & Hdec).
  apply decide_some in Hdec.
  destruct Hdec as (_ & _ & _ & Hticker & Hty & _).
  destruct (evaluate_ticker _ _ _ _ _ _ _ _ _ Hev)
    as (ex & digits & st & Hex & Hdig & Hst & Hvt).
  rewrite Hexp in Hex. injection Hex as <-.
  rewrite Hstrike in Hst. injection Hst as <-.
  rewrite (remove_dashes_isoformat d Hv) in Hdig. injection Hdig as <-.
  rewrite Hticker, Hvt, Hty.
  destruct (v_is_call v); reflexivity.
Qed.

Lemma contract_kind_witness :
  exists call_put,
    getitem Sample.at_the_money_call "call_put" = Ok call_put
    /\ (call_put = JStr "Call" ->
        Type_ (Sample.at_the_money_record "AAPL") = "Call"%string
        /\ black_scholes_call spot (K (Sample.at_the_money_record "AAPL"))
             (sigma (Sample.at_the_money_record "AAPL")) 0.05
             (t (Sample.at_the_money_record "AAPL"))
           = Ok (BlackScholesPrice (Sample.at_the_money_record "AAPL"))).
Proof.
  destruct (contract_kind Sample.float_of_decimal Sample.repr "AAPL"%string
              spot 0.05 0.3 "2023-10-18"%string (Sample.clock 0)
              Sample.at_the_money_call (Sample.at_the_money_record "AAPL"%string)
              (SampleFacts.at_the_money_classify "AAPL"%string))
    as (cp & Hcp & Hcall & _).
  exists cp. split; [exact Hcp | exact Hcall].
Defined.

Lemma missing_field_raises_witness :
  getitem Sample.put_missing_vol "vol" = Raise KeyError
  /\ (forall v,
      evaluate Sample.float_of_decimal Sample.repr "AAPL" spot 0.05 0.3
        "2023-10-18" Sample.put_missing_vol <> Ok v)
  /\ (forall now outcome,
      classify Sample.float_of_decimal Sample.repr "AAPL" spot 0.05 0.3
        "2023-10-18" now Sample.put_missing_vol <> Ok outcome).
Proof.
  apply (missing_field_raises Sample.float_of_decimal Sample.repr
           "AAPL"%string spot 0.05 0.3 "2023-10-18"%string _ "vol"%string).
  - unfold fields. simpl. tauto.
  - reflexivity.
Defined.

Lemma zero_strike_raises_witness :
  exists e,
    evaluate Sample.float_of_decimal Sample.repr "AAPL" spot 0.05 0.3
      "2023-10-18"
      (JObj [("call_put"%string, JStr "Call");
             ("expiration"%string, JStr "2023-11-17");
             ("strike"%string, JNum 0);
             ("bid"%string, JStr "2.10"); ("ask"%string, JStr "2.20");
             ("vol"%string, JNull)])
    = Raise e.
Proof.
  apply (proj1 (zero_strike_raises Sample.float_of_decimal Sample.repr
                  "AAPL"%string spot 0.05 0.3 "2023-10-18"%string _)
           (JNum 0)); reflexivity.
Defined.

Lemma record_invariants_witness :
  K (Sample.at_the_money_record "AAPL") <> 0
  /\ 0.0001 <= t (Sample.at_the_money_record "AAPL")
  /\ UnderlyingTicker (Sample.at_the_money_record "AAPL") = "AAPL"%string
  /\ S (Sample.at_the_money_record "AAPL") = spot
  /\ r (Sample.at_the_money_record "AAPL") = 0.05
  /\ RecordId (Sample.at_the_money_record "AAPL") = Sample.clock 0
  /\ (Type_ (Sample.at_the_money_record "AAPL") = "Call"%string
      \/ Type_ (Sample.at_the_money_record "AAPL") = "Put"%string).
Proof.
  apply (record_invariants Sample.float_of_decimal Sample.repr
           "AAPL"%string spot 0.05 0.3 "2023-10-18"%string (Sample.clock 0)
           Sample.at_the_money_call).
  apply SampleFacts.at_the_money_classify.
Defined.

Lemma option_ticker_format_witness :
  OptionTicker (Sample.at_the_money_record "AAPL")
  = "AAPL20231117C175.84"%string.
Proof.
  apply (option_ticker_format Sample.float_of_decimal Sample.repr
           "AAPL"%string spot 0.05 0.3 "2023-10-18"%string (Sample.clock 0)
           Sample.at_the_money_call (Sample.at_the_money_record "AAPL"%string)
           (mkdate 2023 11 17) "175.84"%string).
  - apply SampleFacts.at_the_money_classify.
  - reflexivity.
  - reflexivity.
  - reflexivity.
Defined.

(** ** The scan as a whole *)

Section ScanComposition.

Variable float_of_string : string -> option R.
Variable repr : json -> string.
Variable requests_get : string -> result response.
Variable utcnow : nat -> string.

(** X15.  Scanning a chain is scanning its first part and then, when that
    part raised nothing, its second part from the list and the collection
    the first part left; an exception of the first part ends the scan. *)
Theorem scan_loop_append (underlying_ticker : string) (r0 sigma_default : R)
    (test_date : string) (rows1 rows2 : list json) :
  forall (acc : list ValuationResult) (db : collection),
    scan_loop float_of_string repr utcnow underlying_ticker r0 sigma_default
      test_date (rows1 ++ rows2) acc db
    = match scan_loop float_of_string repr utcnow underlying_ticker r0
              sigma_default test_date rows1 acc db with
      | (Ok acc1, db1) =>
          scan_loop float_of_string repr utcnow underlying_ticker r0
            sigma_default test_date rows2 acc1 db1
      | (Raise e, db1) => (Raise e, db1)
      end.
Proof.
  induction rows1 as [| row rows1 IH]; intros acc db; simpl.
  - reflexivity.
  - destruct (classify float_of_string repr underlying_ticker spot r0
                sigma_default test_date (utcnow (List.length acc)) row)
      as [[res |] | e]; [apply IH | apply IH | reflexivity].
Qed.

(** X16.  No rollback: when a row raises in the middle of a chain, the
    scan raises that exception, the rows after it are not looked at, and
    the documents inserted for the rows before it stay in the collection. *)
Theorem scan_loop_failure_keeps_inserts (underlying_ticker : string)
    (r0 sigma_default : R) (test_date : string)
    (before after : list json) (bad : json) (e : exn) :
  forall (acc found : list ValuationResult) (db db1 : collection),
    scan_loop float_of_string repr utcnow underlying_ticker r0 sigma_default
      test_date before acc db = (Ok found, db1) ->
    classify float_of_string repr underlying_ticker spot r0 sigma_default
      test_date (utcnow (List.length found)) bad = Raise e ->
    scan_loop float_of_string repr utcnow underlying_ticker r0 sigma_default
      test_date (before ++ bad :: after) acc db = (Raise e, db1).
Proof.
  induction before as [| row before IH]; intros acc found db db1 Hloop Hbad;
    simpl in *.
  - injection Hloop as <- <-. rewrite Hbad. reflexivity.
  - destruct (classify float_of_string repr underlying_ticker spot r0
                sigma_default test_date (utcnow (List.length acc)) row)
      as [[res |] | e'].
    + eapply IH; eassumption.
    + eapply IH; eassumption.
    + discriminate.
Qed.

Lemma scan_loop_from_empty (underlying_ticker : string) (r0 sigma_default : R)
    (test_date : string) (rows : list json) :
  forall (acc : list ValuationResult) (db : collection),
    scan_loop float_of_string repr utcnow underlying_ticker r0 sigma_default
      test_date rows acc db
    = (fst (scan_loop float_of_string repr utcnow underlying_ticker r0
              sigma_default test_date rows acc []),
       db ++ snd (scan_loop float_of_string repr utcnow underlying_ticker r0
                    sigma_default test_date rows acc [])).
Proof.
  induction rows as [| row rows IH]; intros acc db; simpl.
  - rewrite app_nil_r. reflexivity.
  - destruct (classify float_of_string repr underlying_ticker spot r0
                sigma_default test_date (utcnow (List.length acc)) row)
      as [[res |] | e].
    + rewrite (IH (acc ++ [res]) (insert_one db res)).
      rewrite (IH (acc ++ [res]) (insert_one [] res)).
      unfold insert_one. simpl. rewrite <- app_assoc. reflexivity.
    + apply IH.
    + simpl. rewrite app_nil_r. reflexivity.
Qed.

(** X17.  The scan only ever appends to the collection and never reads
    it: what it returns and what it inserts are the same for every
    collection it is run against, the documents already there stay as they
    are, and on success the documents appended are exactly the records
    returned, in the same order. *)
Theorem scan_is_write_only (underlying_ticker : string)
    (r0 sigma_default : R) (test_date : string) :
  exists (out : result (list ValuationResult)) (new : list ValuationResult),
    (forall db,
        scan_options float_of_string repr requests_get utcnow
          underlying_ticker r0 sigma_default test_date db
        = (out, db ++ new))
    /\ (forall results, out = Ok results -> results = new).
Proof.
  exists (fst (scan_options float_of_string repr requests_get utcnow
                 underlying_ticker r0 sigma_default test_date [])),
    (snd (scan_options float_of_string repr requests_get utcnow
            underlying_ticker r0 sigma_default test_date [])).
  split.
  - intro db. unfold scan_options.
    destruct (fetch_dolthub_options requests_get underlying_ticker test_date
                default_limit) as [data | e];
      [| simpl; rewrite app_nil_r; reflexivity].
    destruct (py_len data) as [n | e];
      [| simpl; rewrite app_nil_r; reflexivity].
    destruct (negb (truthy data));
      [simpl; rewrite app_nil_r; reflexivity |].
    destruct (py_iter data) as [rows | e];
      [| simpl; rewrite app_nil_r; reflexivity].
    apply scan_loop_from_empty.
  - intros results Hout.
    destruct (scan_options float_of_string repr requests_get utcnow
                underlying_ticker r0 sigma_default test_date [])
      as [out new] eqn:Hscan.
    simpl in *. subst out.
    destruct (scan_options_spec _ _ _ _ _ _ _ _ _ _ _ Hscan)
      as (new' & Hdb & _ & Hres & _).
    simpl in Hdb. subst new'. exact (Hres results eq_refl).
Qed.

(** X18.  When ["rows"] of the answer is not a list, nothing is ever
    inserted: the scan returns the empty list (for an empty dict or an
    empty text) or raises [TypeError]. *)
Theorem scan_rows_not_a_list (underlying_ticker : string)
    (r0 sigma_default : R) (test_date : string) (db : collection)
    (data : json) :
  fetch_dolthub_options requests_get underlying_ticker test_date
    default_limit = Ok data ->
  (forall items, data <> JArr items) ->
  scan_options float_of_string repr requests_get utcnow underlying_ticker
    r0 sigma_default test_date db = (Ok [], db)
  \/ scan_options float_of_string repr requests_get utcnow underlying_ticker
       r0 sigma_default test_date db = (Raise TypeError, db).
Proof.
  intros Hfetch Hnot. unfold scan_options. rewrite Hfetch.
  destruct data as [| b | x | s | items | members].
  - right. reflexivity.
  - right. reflexivity.
  - right. reflexivity.
  - destruct s as [| c s]; [left; reflexivity | right; reflexivity].
  - exfalso. apply (Hnot items). reflexivity.
  - destruct members as [| [k v] members];
      [left; reflexivity | right; reflexivity].
Qed.

Lemma classify_needs_reference_date (underlying_ticker : string)
    (S0 r0 sigma_default : R) (test_date now : string) (option : json)
    (outcome : Datatypes.option ValuationResult) :
  classify float_of_string repr underlying_ticker S0 r0 sigma_default
    test_date now option = Ok outcome ->
  parseable test_date.
Proof.
  unfold classify. intro H. bind_inv H.
  destruct (evaluate_ok _ _ _ _ _ _ _ _ _ E)
    as (cp & ex & st & _ & _ & _ & _ & _ & _ & _ & Htime & _).
  unfold time_to_expiration in Htime.
  bind_inv Htime. bind_inv Htime. exists a1. assumption.
Qed.

(** X19.  With a reference date that is not a parseable date the scan
    never inserts anything: it returns the empty list on an empty chain and
    nothing but an exception otherwise. *)
Theorem scan_bad_reference_date (underlying_ticker : string)
    (r0 sigma_default : R) (test_date : string) (db : collection) out db' :
  ~ parseable test_date ->
  scan_options float_of_string repr requests_get utcnow underlying_ticker
    r0 sigma_default test_date db = (out, db') ->
  db' = db /\ (forall results, out = Ok results -> results = []).
Proof.
  intros Hbad Hscan.
  destruct (scan_options_spec _ _ _ _ _ _ _ _ _ _ _ Hscan)
    as (new & Hdb & Hall & Hres & _).
  assert (Hnew : new = []).
  { destruct new as [| res new]; [reflexivity |].
    exfalso. inversion Hall as [| ? ? (option & now & Hc) _]; subst.
    apply Hbad. eapply classify_needs_reference_date. exact Hc. }
  subst new. rewrite app_nil_r in Hdb.
  split; [exact Hdb | exact Hres].
Qed.

(** X20.  [fetch_dolthub_options] returns a value exactly when the answer
    has status 200 and decodes to a dict; the value is the ["rows"] member
    of a payload that reports success and the empty list for any other
    dict. *)
Theorem fetch_returns (ticker date : string) (limit : Z) (v : json) :
  fetch_dolthub_options requests_get ticker date limit = Ok v
  <-> exists resp members,
        requests_get (query_url ticker date limit) = Ok resp
        /\ status_code resp = 200%Z
        /\ json_body resp = Ok (JObj members)
        /\ ((success_payload (JObj members) = true
             /\ lookup "rows" members = Some v)
            \/ (success_payload (JObj members) = false /\ v = JArr [])).
Proof.
  unfold fetch_dolthub_options. split.
  - intro H. bind_inv H. rename a into resp, E into Hget.
    destruct (Z.eqb_spec (status_code resp) 200) as [Hst | Hst];
      simpl in H; [| discriminate].
    bind_inv H. rename a into data, E into Hbody.
    destruct data as [| b | x | s | items | members]; try discriminate.
    exists resp, members. repeat (split; [assumption |]).
    unfold success_payload, has_key. unfold dict_get, has_key, getitem in H.
    destruct (lookup "query_execution_status" members) as [status |];
      unfold bind in H.
    + destruct (eq_str status "Success"); simpl in *.
      * destruct (lookup "rows" members) as [rows |].
        -- left. split; [reflexivity | congruence].
        -- right. split; [reflexivity | congruence].
      * right. split; [reflexivity | congruence].
    + right. split; [reflexivity |]. simpl in H. congruence.
  - intros (resp & members & Hget & Hst & Hbody & Hcase).
    rewrite Hget. unfold bind at 1. rewrite Hst. simpl.
    rewrite Hbody. unfold bind at 1.
    unfold success_payload, has_key in Hcase.
    unfold dict_get, has_key, getitem.
    destruct (lookup "query_execution_status" members) as [status |];
      unfold bind.
    + destruct Hcase as [[Hs Hrows] | [Hs ->]].
      * rewrite Hs, Hrows. reflexivity.
      * rewrite Hs. reflexivity.
    + destruct Hcase as [[Hs _] | [_ ->]]; [discriminate | reflexivity].
Qed.

End ScanComposition.

Lemma scan_loop_failure_keeps_inserts_witness :
  scan_loop Sample.float_of_decimal Sample.repr Sample.clock "AAPL" 0.05 0.3
    "2023-10-18" [Sample.at_the_money_call; JNull; Sample.put_without_vol]
    [] []
  = (Raise TypeError, [Sample.at_the_money_record "AAPL"]).
Proof.
  apply (scan_loop_failure_keeps_inserts Sample.float_of_decimal Sample.repr
           Sample.clock "AAPL"%string 0.05 0.3 "2023-10-18"%string
           [Sample.at_the_money_call] [Sample.put_without_vol] JNull TypeError
           [] [Sample.at_the_money_record "AAPL"%string] []
           [Sample.at_the_money_record "AAPL"%string]).
  - cbn [scan_loop List.length].
    rewrite SampleFacts.at_the_money_classify. reflexivity.
  - reflexivity.
Defined.

(** An answer whose ["rows"] is null. *)
Lemma scan_rows_not_a_list_witness :
  Sample.scan
    (Ok (mkResponse 200 "{...}"
           (Ok (JObj [("query_execution_status"%string, JStr "Success");
                      ("rows"%string, JNull)]))))
    "AAPL" 0.05 0.3 "2023-10-18" []
  = (Ok [], [])
  \/ Sample.scan
       (Ok (mkResponse 200 "{...}"
              (Ok (JObj [("query_execution_status"%string, JStr "Success");
                         ("rows"%string, JNull)]))))
       "AAPL" 0.05 0.3 "2023-10-18" []
     = (Raise TypeError, []).
Proof.
  apply (scan_rows_not_a_list Sample.float_of_decimal Sample.repr
           (Sample.always
              (Ok (mkResponse 200 "{...}"
                     (Ok (JObj [("query_execution_status"%string,
                                 JStr "Success");
                                ("rows"%string, JNull)])))))
           Sample.clock "AAPL"%string 0.05 0.3 "2023-10-18"%string [] JNull).
  - reflexivity.
  - intros items H. discriminate H.
Defined.

Lemma scan_bad_reference_date_witness :
  snd (Sample.scan (Ok (Sample.chain_response [Sample.at_the_money_call]))
         "AAPL" 0.05 0.3 "18/10/2023" [])
  = [].
Proof.
  destruct (Sample.scan
              (Ok (Sample.chain_response [Sample.at_the_money_call]))
              "AAPL" 0.05 0.3 "18/10/2023" []) as [out db'] eqn:Hscan.
  simpl.
  refine (proj1 (scan_bad_reference_date Sample.float_of_decimal Sample.repr
                   (Sample.always
                      (Ok (Sample.chain_response [Sample.at_the_money_call])))
                   Sample.clock "AAPL"%string 0.05 0.3 "18/10/2023"%string []
                   out db' _ Hscan)).
  intros [d Hd]. vm_compute in Hd. discriminate Hd.
Defined.

(** ** The entry point *)

(** X21.  The entry point asks the data source for one thing only, the
    chain of AAPL on 2023-10-18 with the limit 100, and the count it prints
    is the number of documents it has inserted: the collection grows by
    exactly the records that are counted and dumped. *)
Theorem main_report (float_of_string : string -> option R)
    (repr : json -> string) (requests_get : string -> result response)
    (utcnow : nat -> string) (dumps : list ValuationResult -> string)
    (db : collection) :
  let url :=
    ("https://www.dolthub.com/api/v1alpha1/post-no-preference/options/master?"
     ++ "q=SELECT * FROM option_chain WHERE act_symbol = 'AAPL' "
     ++ "AND date = '2023-10-18' LIMIT 100")%string in
  (forall other_get : string -> result response,
      other_get url = requests_get url ->
      main float_of_string repr other_get utcnow dumps db
      = main float_of_string repr requests_get utcnow dumps db)
  /\ (forall count_line dump db',
      main float_of_string repr requests_get utcnow dumps db
      = (Printed count_line dump, db') ->
      exists new,
        db' = db ++ new
        /\ count_line
           = ("Found " ++ str_of_int (Z.of_nat (List.length new))
              ++ " undervalued options:")%string
        /\ dump = dumps new).
Proof.
  intro url. split.
  - intros other_get Hsame. unfold main.
    rewrite (scan_single_query float_of_string repr requests_get utcnow
               other_get "AAPL" 0.05 0.3 "2023-10-18" db Hsame).
    reflexivity.
  - intros count_line dump db' Hmain. unfold main in Hmain.
    destruct (scan_options float_of_string repr requests_get utcnow
                "AAPL" 0.05 0.3 "2023-10-18" db) as [[results | e] db1]
      eqn:Hscan; [| discriminate].
    injection Hmain as <- <- <-.
    destruct (scan_options_spec _ _ _ _ _ _ _ _ _ _ _ Hscan)
      as (new & Hdb & _ & Hres & _).
    rewrite (Hres results eq_refl).
    exists new. repeat split. exact Hdb.
Qed.

Lemma main_report_witness :
  main Sample.float_of_decimal Sample.repr
    (Sample.always (Ok (Sample.chain_response [Sample.at_the_money_call])))
    Sample.clock (fun _ => "[...]"%string) []
  = (Printed "Found 1 undervalued options:" "[...]",
     [Sample.at_the_money_record "AAPL"])
  /\ exists new,
       [Sample.at_the_money_record "AAPL"] = [] ++ new
       /\ "Found 1 undervalued options:"%string
          = ("Found " ++ str_of_int (Z.of_nat (List.length new))
             ++ " undervalued options:")%string
       /\ "[...]"%string = "[...]"%string.
Proof.
  assert (Hmain :
    main Sample.float_of_decimal Sample.repr
      (Sample.always (Ok (Sample.chain_response [Sample.at_the_money_call])))
      Sample.clock (fun _ => "[...]"%string) []
    = (Printed "Found 1 undervalued options:" "[...]",
       [Sample.at_the_money_record "AAPL"])).
  { unfold main.
    change (scan_options Sample.float_of_decimal Sample.repr
              (Sample.always
                 (Ok (Sample.chain_response [Sample.at_the_money_call])))
              Sample.clock "AAPL" 0.05 0.3 "2023-10-18" [])
      with (Sample.scan
              (Ok (Sample.chain_response [Sample.at_the_money_call]))
              "AAPL" 0.05 0.3 "2023-10-18" []).
    rewrite SampleFacts.at_the_money_scan. reflexivity. }
  split; [exact Hmain |].
  exact (proj2 (main_report Sample.float_of_decimal Sample.repr
                  (Sample.always
                     (Ok (Sample.chain_response [Sample.at_the_money_call])))
                  Sample.clock (fun _ => "[...]"%string) [])
           _ _ _ Hmain).
Defined.
